(** * The live-data ingestion service of [simple_pathway_service.py]

    A shallow embedding of [AdvancedLiveDataService]: the registry client,
    the weather and RSS fetch strategies, the feed parser, the delivery
    client and the monitoring loop, followed by the properties the
    specification states about them (C1 to C10) and by further properties
    of the same methods that the code shows (X1 to X18): what the service
    may send and when it sleeps, how deliveries are counted, which errors
    stay inside a source and which end a sweep.

    Conventions of the embedding.
    - Python values that come out of JSON (source configurations, response
      bodies, the items the strategies build) are [pyval]s; a [dict] is an
      association list in insertion order.
    - A Python [float] is held as the rational it is worth ([VFloat]).  The
      floats the scheduler computes are rounded to binary64 ([binary64]);
      the one decimal of the synthetic wind speed is kept exact.  A string
      is a [string] whose characters stand for code points below 256.
    - Exceptions are the ones derived from Python's [Exception]; every
      [except Exception] clause of the source is a [try_catch].  Signals that
      are not [Exception]s (KeyboardInterrupt, task cancellation) are outside
      the model.
    - The network, the random generator and the wall clock are oracles held
      in the [World]; every call consumes the next answer of its oracle, so a
      statement quantified over all worlds covers every behaviour of the
      environment.  What the program does to the outside (requests, sleeps,
      printed lines) is collected in a trace of [event]s.
    - The functions of the Python library the service calls without defining
      them ([str], [isoformat], [fromisoformat], [ET.fromstring]) are the
      fields of the class [Runtime]; every property holds for every runtime.

    The file has the model first (values, effects, the service method by
    method), then the vocabulary of the properties and a concrete runtime
    with concrete worlds, then the properties, component by component, and
    at the end runs of the model on concrete inputs. *)

From Stdlib Require Import ZArith QArith List String Ascii Bool Lia DecimalString.
Import ListNotations.
#[local] Open Scope string_scope.
#[local] Open Scope Z_scope.

(** ** Python values *)

Module Py.

#[local] Set Warnings "-register-all".

Inductive pyval : Type :=
| VNone
| VBool (b : bool)
| VInt (n : Z)
| VFloat (q : Q)
| VStr (s : string)
| VList (l : list pyval)
| VDict (d : list (string * pyval)).

Definition pydict := list (string * pyval).

Inductive exn_class :=
| KeyError | TypeError | AttributeError | IndexError | ValueError
| ParseError | ClientError | TimeoutError | OverflowError | OtherError.

Record exn := Exn { exn_cls : exn_class; exn_msg : string }.

Inductive outcome (A : Type) : Type :=
| Ok (a : A)
| Raise (e : exn).
Arguments Ok {A} a.
Arguments Raise {A} e.

(** [bool(v)] *)
Definition truthy (v : pyval) : bool :=
  match v with
  | VNone => false
  | VBool b => b
  | VInt n => negb (n =? 0)
  | VFloat q => negb (Qeq_bool q 0)
  | VStr s => negb (s =? "")%string
  | VList l => match l with [] => false | _ => true end
  | VDict d => match d with [] => false | _ => true end
  end.

(** [v == 'literal'] for a string literal *)
Definition eq_str (v : pyval) (lit : string) : bool :=
  match v with VStr s => (s =? lit)%string | _ => false end.

Fixpoint lookup (d : pydict) (k : string) : option pyval :=
  match d with
  | [] => None
  | (k', v) :: rest => if (k' =? k)%string then Some v else lookup rest k
  end.

(** [d.get(k)] and [d.get(k, default)] on a dict *)
Definition dict_get (d : pydict) (k : string) : pyval :=
  match lookup d k with Some v => v | None => VNone end.

Definition dict_get_or (d : pydict) (k : string) (dflt : pyval) : pyval :=
  match lookup d k with Some v => v | None => dflt end.

(** [d[k]] on a dict: KeyError when the key is missing; the message is the
    repr of the key, as Python prints it. *)
Definition dict_item (d : pydict) (k : string) : outcome pyval :=
  match lookup d k with
  | Some v => Ok v
  | None => Raise (Exn KeyError ("'" ++ k ++ "'"))
  end.

(** [type(v).__name__], as the texts of TypeError and AttributeError have it *)
Definition type_name (v : pyval) : string :=
  match v with
  | VNone => "NoneType"
  | VBool _ => "bool"
  | VInt _ => "int"
  | VFloat _ => "float"
  | VStr _ => "str"
  | VList _ => "list"
  | VDict _ => "dict"
  end.

(** The AttributeError of [v.name] for a value without that attribute *)
Definition no_attribute (v : pyval) (name : string) : exn :=
  Exn AttributeError
    ("'" ++ type_name v ++ "' object has no attribute '" ++ name ++ "'").

(** [v.get(k, default)] on an arbitrary value: only a dict has [get]. *)
Definition method_get (v : pyval) (k : string) (dflt : pyval) : outcome pyval :=
  match v with
  | VDict d => Ok (dict_get_or d k dflt)
  | _ => Raise (no_attribute v "get")
  end.

(** The TypeError of [v[...]] for a value that has no items *)
Definition not_subscriptable (v : pyval) : exn :=
  Exn TypeError ("'" ++ type_name v ++ "' object is not subscriptable").

(** [v[k]] with a string key; the text for a string is the one of
    CPython 3.11 and later. *)
Definition subscript_str (v : pyval) (k : string) : outcome pyval :=
  match v with
  | VDict d => dict_item d k
  | VList _ =>
      Raise (Exn TypeError "list indices must be integers or slices, not str")
  | VStr _ => Raise (Exn TypeError "string indices must be integers, not 'str'")
  | _ => Raise (not_subscriptable v)
  end.

Definition chars (s : string) : list pyval :=
  map (fun c => VStr (String c EmptyString)) (list_ascii_of_string s).

(** [v[0]]; a dict decoded from JSON has string keys only. *)
Definition subscript_0 (v : pyval) : outcome pyval :=
  match v with
  | VList (x :: _) => Ok x
  | VList [] => Raise (Exn IndexError "list index out of range")
  | VStr s => match chars s with
              | c :: _ => Ok c
              | [] => Raise (Exn IndexError "string index out of range")
              end
  | VDict _ => Raise (Exn KeyError "0")
  | _ => Raise (not_subscriptable v)
  end.

(** [for x in v]: the elements of a list, the keys of a dict, the characters
    of a string; anything else is not iterable. *)
Definition iterate (v : pyval) : outcome (list pyval) :=
  match v with
  | VList l => Ok l
  | VDict d => Ok (map (fun kv => VStr (fst kv)) d)
  | VStr s => Ok (chars s)
  | _ => Raise (Exn TypeError ("'" ++ type_name v ++ "' object is not iterable"))
  end.

(** [len(v)] *)
Definition len (v : pyval) : outcome Z :=
  match v with
  | VList l => Ok (Z.of_nat (List.length l))
  | VDict d => Ok (Z.of_nat (List.length d))
  | VStr s => Ok (Z.of_nat (String.length s))
  | _ => Raise (Exn TypeError ("object of type '" ++ type_name v ++ "' has no len()"))
  end.

(** A value used as a key of a dict of the program must be hashable. *)
Definition hashable (v : pyval) : bool :=
  match v with VList _ | VDict _ => false | _ => true end.

(** The number behind a value in an arithmetic comparison. *)
Definition as_number (v : pyval) : option Q :=
  match v with
  | VInt n => Some (inject_Z n)
  | VFloat q => Some q
  | VBool b => Some (inject_Z (if b then 1 else 0))
  | _ => None
  end.

(** *** Strings *)

Definition is_space (c : ascii) : bool :=
  let n := nat_of_ascii c in
  ((9 <=? n) && (n <=? 13) || (28 <=? n) && (n <=? 32)
   || (n =? 133) || (n =? 160))%nat.

Fixpoint lstrip (s : string) : string :=
  match s with
  | EmptyString => EmptyString
  | String c r => if is_space c then lstrip r else s
  end.

Fixpoint rstrip (s : string) : string :=
  match s with
  | EmptyString => EmptyString
  | String c r =>
      let r' := rstrip r in
      if is_space c && (r' =? "")%string then EmptyString else String c r'
  end.

(** [s.strip()] *)
Definition strip (s : string) : string := rstrip (lstrip s).

(** [s[:n]] *)
Definition prefix_slice (n : nat) (s : string) : string := substring 0 n s.

(** [s.replace('Z', '+00:00')] *)
Fixpoint replace_Z (s : string) : string :=
  match s with
  | EmptyString => EmptyString
  | String c r =>
      if Ascii.eqb c "Z"%char then "+00:00" ++ replace_Z r
      else String c (replace_Z r)
  end.

Definition newline : string := String (ascii_of_nat 10) EmptyString.

(** *** XML trees, as [xml.etree.ElementTree] hands them out *)

Inductive element : Type :=
| Element (tag : string) (text : option string) (children : list element).

Definition tag_of (e : element) : string :=
  match e with Element t _ _ => t end.
Definition text_of (e : element) : option string :=
  match e with Element _ x _ => x end.
Definition children_of (e : element) : list element :=
  match e with Element _ _ c => c end.

(** [e.iter()]: the element and its descendants in document order. *)
Fixpoint iter (e : element) : list element :=
  match e with
  | Element _ _ cs => e :: flat_map iter cs
  end.

(** [root.findall('.//tag')]: the descendants (root excluded) with that tag. *)
Definition findall_desc (root : element) (tag : string) : list element :=
  filter (fun e => (tag_of e =? tag)%string) (flat_map iter (children_of root)).

(** [e.find(tag)]: the first child with that tag. *)
Definition find_child (e : element) (tag : string) : option element :=
  List.find (fun c => (tag_of c =? tag)%string) (children_of e).

(** *** Floats *)

(** A Python [float] is a binary64 number, and an operation on floats
    returns the float nearest to the exact result, ties going to the even
    significand.  A float is held as the rational it is worth; [binary64 q]
    is the float nearest to the rational [q].  The range of the exponent is
    not modelled (no overflow to infinity, no subnormal numbers): the
    differences of two Python datetimes, in seconds, are 0 or between 1e-6
    and 4e11 in size, far inside that range. *)

(** [2^e * q] *)
Definition scale2 (e : Z) (q : Q) : Q :=
  if 0 <=? e then (q * inject_Z (2 ^ e))%Q else (q / inject_Z (2 ^ (- e)))%Q.

(** For [q] other than 0, the [k] with [2^k <= |q| < 2^(k+1)]. *)
Definition floor_log2 (q : Q) : Z :=
  let n := Z.abs (Qnum q) in
  let k := Z.log2 n - Z.log2 (Zpos (Qden q)) in
  if Qle_bool (scale2 k 1) (n # Qden q) then k else k - 1.

(** The integer nearest to [q], ties going to the even one. *)
Definition round_half_even (q : Q) : Z :=
  let d := Zpos (Qden q) in
  let f := Qnum q / d in
  match 2 * (Qnum q mod d) ?= d with
  | Lt => f
  | Gt => f + 1
  | Eq => if Z.even f then f else f + 1
  end.

(** The nearest number with a significand of 53 bits. *)
Definition binary64 (q : Q) : Q :=
  if Qnum q =? 0 then 0%Q
  else
    let e := floor_log2 q - 52 in
    scale2 e (inject_Z (round_half_even (scale2 (- e) q))).

(** [float(n)] for an int: the nearest float, and OverflowError for an int
    that would round to 2^1024 or beyond. *)
Definition float_of_int (n : Z) : outcome Q :=
  if 2 ^ 1024 - 2 ^ 970 <=? Z.abs n then
    Raise (Exn OverflowError "int too large to convert to float")
  else Ok (binary64 (inject_Z n)).

(** *** Dates *)

(** A [datetime]: the wall-clock reading in microseconds, and the UTC offset
    (in microseconds) when the value is timezone-aware. *)
Record datetime := Datetime { wall : Z; tzinfo : option Z }.

(** [dt.replace(tzinfo=None)] keeps the wall-clock reading. *)
Definition drop_tzinfo (dt : datetime) : datetime := Datetime (wall dt) None.

(** [(a - b).total_seconds()] for two naive datetimes: the difference is an
    exact number of microseconds, and its division by 10^6 is a float. *)
Definition total_seconds (a b : datetime) : Q :=
  binary64 ((wall a - wall b) # 1000000).

(** The functions of the Python runtime and standard library the service
    calls and the embedding does not define: [str()] as used by f-strings,
    [datetime.isoformat], [datetime.fromisoformat] and
    [xml.etree.ElementTree.fromstring]. *)
Class Runtime := {
  py_str : pyval -> string;
  isoformat : datetime -> string;
  fromisoformat : string -> outcome datetime;
  ET_fromstring : string -> outcome element
}.

End Py.
Import Py.

(** ** The environment and the effects of the service *)

(** What an HTTP call answers: the status, and what [await response.text()]
    and [await response.json()] give (either may raise). *)
Record response := Response {
  status : Z;
  text : outcome string;
  json : outcome pyval
}.

(** The oracles: the answer to the n-th network call (a response, or the
    exception the call raises: connection failure, timeout), the n-th raw
    draw of the random generator and the n-th reading of the clock. *)
Record World := MkWorld {
  net : nat -> outcome response;
  net_pos : nat;
  rnd : nat -> Z;
  rnd_pos : nat;
  clock : nat -> Z;
  clock_pos : nat
}.

(** The world after one more answer of an oracle was consumed. *)
Definition next_net (w : World) : World :=
  MkWorld (net w) (S (net_pos w)) (rnd w) (rnd_pos w) (clock w) (clock_pos w).
Definition next_rnd (w : World) : World :=
  MkWorld (net w) (net_pos w) (rnd w) (S (rnd_pos w)) (clock w) (clock_pos w).
Definition next_clock (w : World) : World :=
  MkWorld (net w) (net_pos w) (rnd w) (rnd_pos w) (clock w) (S (clock_pos w)).

(** What the next network call is answered, and what the clock reads next. *)
Definition reply (w : World) : outcome response := net w (net_pos w).
Definition reading (w : World) : datetime := Datetime (clock w (clock_pos w)) None.

Inductive logline :=
| LogFetchSourcesFailed (st : Z)
| LogFetchSourcesError (e : exn)
| LogCityError (city : pyval) (e : exn)
| LogWeatherError (e : exn)
| LogRssFetching (url : pyval)
| LogRssParsed (n : nat) (url : pyval)
| LogRssParseEmpty (url : pyval)
| LogRssStatus (url : pyval) (st : Z)
| LogRssError (e : exn)
| LogItemError (e : exn)
| LogXmlError (e : exn)
| LogProcessing (name ty : pyval)
| LogUnsupported (ty : pyval)
| LogNoData (name : pyval)
| LogSent (name msg : pyval)
| LogSendFailed (name msg : pyval)
| LogSummary (name : pyval) (sent total : nat)
| LogProcessError (name : pyval) (e : exn)
| LogBanner
| LogBackendUrl (url : string)
| LogRule
| LogChecking (now : datetime)
| LogNoSources
| LogFound (n : Z)
| LogSource (name st active : pyval)
| LogNextRun (name : pyval) (secs : Z)
| LogSourceError (name : pyval) (e : exn)
| LogInactive (name : pyval)
| LogWaiting
| LogLoopError (e : exn).

Inductive event :=
| EvGet (url : pyval) (params : pydict) (headers : list (string * string))
    (timeout : option Z)
| EvPost (url : string) (payload : pyval) (timeout : option Z)
| EvSleep (secs : Z)
| EvPrint (l : logline).

(** A computation reads and advances the oracles, appends to the trace and
    either returns or raises. *)
Definition M (A : Type) : Type := World -> outcome A * World * list event.

Definition ret {A} (a : A) : M A := fun w => (Ok a, w, []).

Definition raise {A} (e : exn) : M A := fun w => (Raise e, w, []).

Definition bind {A B} (m : M A) (k : A -> M B) : M B := fun w =>
  match m w with
  | (Ok a, w1, t1) => let '(r, w2, t2) := k a w1 in (r, w2, (t1 ++ t2)%list)
  | (Raise e, w1, t1) => (Raise e, w1, t1)
  end.

(** [try: body  except Exception as e: handler e] *)
Definition try_catch {A} (body : M A) (handler : exn -> M A) : M A := fun w =>
  match body w with
  | (Ok a, w1, t1) => (Ok a, w1, t1)
  | (Raise e, w1, t1) => let '(r, w2, t2) := handler e w1 in (r, w2, (t1 ++ t2)%list)
  end.

Definition lift {A} (o : outcome A) : M A := fun w => (o, w, []).

Declare Scope py_scope.
Delimit Scope py_scope with py.
Notation "x <- m ;; k" := (bind m (fun x => k))
  (at level 61, m at next level, right associativity) : py_scope.
Notation "m ;; k" := (bind m (fun _ => k))
  (at level 61, right associativity) : py_scope.
#[local] Open Scope py_scope.

Definition emit (e : event) : M unit := fun w => (Ok tt, w, [e]).
Definition print (l : logline) : M unit := emit (EvPrint l).
Definition asyncio_sleep (secs : Z) : M unit := emit (EvSleep secs).

(** [session.get(url, params=..., headers=..., timeout=...)]: the request
    goes out, the oracle answers. *)
Definition session_get (url : pyval) (params : pydict)
    (headers : list (string * string)) (timeout : option Z) : M response := fun w =>
  (reply w, next_net w, [EvGet url params headers timeout]).

(** [session.post(url, json=payload, timeout=...)] *)
Definition session_post (url : string) (payload : pyval) (timeout : option Z)
  : M response := fun w =>
  (reply w, next_net w, [EvPost url payload timeout]).

Definition random_raw : M Z := fun w =>
  (Ok (rnd w (rnd_pos w)), next_rnd w, []).

(** [random.randint(a, b)]: an integer N with a <= N <= b. *)
Definition random_randint (a b : Z) : M Z :=
  r <- random_raw ;; ret (a + r mod (b - a + 1)).

(** [random.choice(seq)] on a non-empty list of strings. *)
Definition random_choice (seq : list string) : M string :=
  r <- random_raw ;;
  ret (nth (Z.to_nat (r mod Z.of_nat (List.length seq))) seq "").

(** [round(random.uniform(0, hi), 1)]: a multiple of one tenth between 0
    and [hi]. *)
Definition random_uniform_round1 (hi : Z) : M Q :=
  r <- random_raw ;; ret ((r mod (10 * hi + 1)) # 10).

(** [datetime.now()]: a naive datetime. *)
Definition datetime_now : M datetime := fun w =>
  (Ok (reading w), next_clock w, []).

(** A [for] loop that threads the list it appends to. *)
Fixpoint for_each {A S} (xs : list A) (body : S -> A -> M S) (acc : S) : M S :=
  match xs with
  | [] => ret acc
  | x :: rest => acc' <- body acc x ;; for_each rest body acc'
  end.

(** ** The service *)

(** [self]: the only attribute the methods read is [backend_url]. *)
Record service := Service { backend_url : string }.

Section AdvancedLiveDataService.

Context {RT : Runtime}.
Variable self : service.

(** *** Registry client *)

Definition get_registered_sources : M pyval :=
  try_catch
    (response <- session_get
        (VStr (backend_url self ++ "/api/pathway/sources/active")) [] [] None ;;
     if status response =? 200 then
       data <- lift (json response) ;;
       lift (method_get data "sources" (VList []))
     else
       print (LogFetchSourcesFailed (status response)) ;;
       ret (VList []))
    (fun e => print (LogFetchSourcesError e) ;; ret (VList [])).

(** *** Weather strategy *)

Definition base_temps : list (string * Z) :=
  [("New York", 15); ("London", 12); ("Tokyo", 18); ("Sydney", 22);
   ("Berlin", 8); ("Paris", 14); ("Los Angeles", 24); ("Chicago", 10);
   ("Toronto", 9); ("Mumbai", 28)].

Definition conditions : list string :=
  ["Clear sky"; "Few clouds"; "Scattered clouds"; "Broken clouds";
   "Light rain"; "Sunny"; "Partly cloudy"; "Overcast"].

(** A decimal literal with four digits after the point. *)
Definition dec4 (n : Z) : pyval := VFloat (n # 10000).

Definition latlon (lat lon : pyval) : pyval := VDict [("lat", lat); ("lon", lon)].

Definition coords : list (string * pyval) :=
  [("New York", latlon (dec4 407128) (dec4 (-740060)));
   ("London", latlon (dec4 515074) (dec4 (-1278)));
   ("Tokyo", latlon (dec4 356762) (dec4 1396503));
   ("Sydney", latlon (dec4 (-338688)) (dec4 1512093));
   ("Berlin", latlon (dec4 525200) (dec4 134050));
   ("Paris", latlon (dec4 488566) (dec4 23522));
   ("Los Angeles", latlon (dec4 340522) (dec4 (-1182437)));
   ("Chicago", latlon (dec4 418781) (dec4 (-876298)));
   ("Toronto", latlon (dec4 436532) (dec4 (-793832)));
   ("Mumbai", latlon (dec4 190760) (dec4 728777))].

Fixpoint assoc {V} (t : list (string * V)) (k : string) : option V :=
  match t with
  | [] => None
  | (k', v) :: rest => if (k' =? k)%string then Some v else assoc rest k
  end.

(** [table.get(key, default)] on a dict literal of the program, whose keys
    are strings: an unhashable key raises, any other key that is not one of
    the strings gets the default. *)
Definition table_get {V} (t : list (string * V)) (key : pyval) (dflt : V)
  : outcome V :=
  match key with
  | VStr s => Ok (match assoc t s with Some v => v | None => dflt end)
  | VList _ | VDict _ =>
      Raise (Exn TypeError ("unhashable type: '" ++ type_name key ++ "'"))
  | _ => Ok dflt
  end.

Definition get_coordinates (city : pyval) : outcome pyval :=
  table_get coords city (latlon (VInt 0) (VInt 0)).

Definition generate_mock_weather_data (city source_id : pyval) : M pyval :=
  base_temp <- lift (table_get base_temps city 15) ;;
  offset <- random_randint (-5) 10 ;;
  let temperature := base_temp + offset in
  description <- random_choice conditions ;;
  humidity <- random_randint 40 80 ;;
  windSpeed <- random_uniform_round1 15 ;;
  pressure <- random_randint 990 1020 ;;
  now <- datetime_now ;;
  coordinates <- lift (get_coordinates city) ;;
  ret (VDict
    [("city", city);
     ("temperature", VInt temperature);
     ("description", VStr description);
     ("humidity", VInt humidity);
     ("windSpeed", VFloat windSpeed);
     ("pressure", VInt pressure);
     ("timestamp", VStr (isoformat now));
     ("source", VStr ("pathway-service-" ++ py_str source_id));
     ("sourceId", source_id);
     ("coordinates", coordinates)]).

(** The record built from a 200 answer of the weather provider. *)
Definition live_weather_data (source_config : pydict) (data : pyval) : M pyval :=
  name <- lift (subscript_str data "name") ;;
  main <- lift (subscript_str data "main") ;;
  temp <- lift (subscript_str main "temp") ;;
  weather <- lift (subscript_str data "weather") ;;
  weather0 <- lift (subscript_0 weather) ;;
  description <- lift (subscript_str weather0 "description") ;;
  main' <- lift (subscript_str data "main") ;;
  humidity <- lift (subscript_str main' "humidity") ;;
  wind <- lift (subscript_str data "wind") ;;
  speed <- lift (method_get wind "speed" (VInt 0)) ;;
  main'' <- lift (subscript_str data "main") ;;
  pressure <- lift (subscript_str main'' "pressure") ;;
  now <- datetime_now ;;
  source_id <- lift (dict_item source_config "sourceId") ;;
  coord <- lift (subscript_str data "coord") ;;
  lat <- lift (subscript_str coord "lat") ;;
  coord' <- lift (subscript_str data "coord") ;;
  lon <- lift (subscript_str coord' "lon") ;;
  ret (VDict
    [("city", name);
     ("temperature", temp);
     ("description", description);
     ("humidity", humidity);
     ("windSpeed", speed);
     ("pressure", pressure);
     ("timestamp", VStr (isoformat now));
     ("source", VStr ("openweathermap-api-" ++ py_str source_id));
     ("coordinates", latlon lat lon)]).

(** [api_key and api_key != 'demo-key'] *)
Definition use_real_api (api_key : pyval) : bool :=
  truthy api_key && negb (eq_str api_key "demo-key").

(** The fallback both the body and the handler of the per-city [try] run. *)
Definition mock_for_city (source_config : pydict) (weather_results : list pyval)
    (city : pyval) : M (list pyval) :=
  source_id <- lift (dict_item source_config "sourceId") ;;
  weather_data <- generate_mock_weather_data city source_id ;;
  ret (weather_results ++ [weather_data])%list.

(** One turn of [for city in cities]; [Some] stands for the [continue] after
    a live record was appended. *)
Definition city_step (source_config : pydict) (api_key : pyval)
    (weather_results : list pyval) (city : pyval) : M (list pyval) :=
  try_catch
    (live <-
       (if use_real_api api_key then
          response <- session_get
              (VStr "http://api.openweathermap.org/data/2.5/weather")
              [("q", city); ("appid", api_key); ("units", VStr "metric")] []
              (Some 10) ;;
          if status response =? 200 then
            data <- lift (json response) ;;
            weather_data <- live_weather_data source_config data ;;
            ret (Some weather_data)
          else ret None
        else ret None) ;;
     match live with
     | Some weather_data => ret (weather_results ++ [weather_data])%list
     | None => mock_for_city source_config weather_results city
     end)
    (fun city_error =>
       print (LogCityError city city_error) ;;
       mock_for_city source_config weather_results city).

(** The body of the outer [try] of [fetch_weather_data]. *)
Definition fetch_weather_body (source_config : pydict) : M (list pyval) :=
  cities <- lift (method_get (dict_get_or source_config "config" (VDict []))
                    "cities" (VList [VStr "New York"])) ;;
  api_key <- lift (method_get (dict_get_or source_config "config" (VDict []))
                     "apiKey" VNone) ;;
  cities_seq <- lift (iterate cities) ;;
  for_each cities_seq (city_step source_config api_key) [].

Definition fetch_weather_data (source_config : pydict) : M (list pyval) :=
  try_catch (fetch_weather_body source_config)
    (fun e => print (LogWeatherError e) ;; ret []).

(** *** Feed parser *)

Definition atom_ns : string := "{http://www.w3.org/2005/Atom}".

(** [get_xml_text]: the stripped text of the first candidate tag that is
    present with a non-empty text. *)
Fixpoint get_xml_text (item : element) (tag_names : list string) : option string :=
  match tag_names with
  | [] => None
  | tag :: rest =>
      match find_child item tag with
      | Some found =>
          match text_of found with
          | Some t => if negb (t =? "")%string then Some (strip t)
                      else get_xml_text item rest
          | None => get_xml_text item rest
          end
      | None => get_xml_text item rest
      end
  end.

(** [x or ''] for an optional string *)
Definition or_empty (x : option string) : string :=
  match x with Some s => s | None => "" end.

(** [bool(x)] for an optional string *)
Definition some_text (x : option string) : bool :=
  match x with Some s => negb (s =? "")%string | None => false end.

(** The ['description'] entry of a parsed article. *)
Definition description_field (description : option string) : string :=
  prefix_slice 500 (strip (or_empty description))
  ++ (if (500 <? String.length (or_empty description))%nat then "..." else "").

(** The body of the per-item [try]. *)
Definition rss_item_body (source_config : pydict) (items : list pyval)
    (item : element) : M (list pyval) :=
  let title := get_xml_text item ["title"] in
  let description :=
    get_xml_text item ["description"; "summary"; atom_ns ++ "summary"] in
  let link := get_xml_text item ["link"; "guid"; atom_ns ++ "link"] in
  let pub_date :=
    get_xml_text item ["pubDate"; "published"; atom_ns ++ "published"] in
  if some_text title then
    timestamp <- (if some_text pub_date then ret (or_empty pub_date)
                  else now <- datetime_now ;; ret (isoformat now)) ;;
    source_id <- lift (dict_item source_config "sourceId") ;;
    source_id' <- lift (dict_item source_config "sourceId") ;;
    source_name <- lift (dict_item source_config "sourceName") ;;
    source_url <- lift (dict_item source_config "sourceUrl") ;;
    ret (items ++
      [VDict
        [("title", VStr (strip (or_empty title)));
         ("description", VStr (description_field description));
         ("content", VStr (or_empty title ++ newline ++ newline
                           ++ or_empty description));
         ("link", VStr (or_empty link));
         ("timestamp", VStr timestamp);
         ("source", VStr ("rss-" ++ py_str source_id));
         ("sourceId", source_id');
         ("sourceName", source_name);
         ("sourceUrl", source_url);
         ("type", VStr "rss_article")]])%list
  else ret items.

(** One turn of [for item in rss_items[:10]]. *)
Definition rss_item_step (source_config : pydict) (items : list pyval)
    (item : element) : M (list pyval) :=
  try_catch (rss_item_body source_config items item)
    (fun item_error => print (LogItemError item_error) ;; ret items).

(** The nodes the parser walks: [<item>] descendants, or Atom [<entry>]
    descendants when there is no [<item>]. *)
Definition matched_items (root : element) : list element :=
  match findall_desc root "item" with
  | [] => findall_desc root (atom_ns ++ "entry")
  | rss_items => rss_items
  end.

Definition parse_rss_content (content : string) (source_config : pydict)
  : M (list pyval) :=
  try_catch
    (root <- lift (ET_fromstring content) ;;
     for_each (firstn 10 (matched_items root)) (rss_item_step source_config) [])
    (fun e => print (LogXmlError e) ;; ret []).

(** *** RSS strategy *)

Definition mock_article (source_config : pydict) (headline blurb suffix : string)
  : M pyval :=
  name_t <- lift (dict_item source_config "sourceName") ;;
  name_c <- lift (dict_item source_config "sourceName") ;;
  now <- datetime_now ;;
  source_id <- lift (dict_item source_config "sourceId") ;;
  source_id' <- lift (dict_item source_config "sourceId") ;;
  source_name <- lift (dict_item source_config "sourceName") ;;
  source_url <- lift (dict_item source_config "sourceUrl") ;;
  ret (VDict
    [("title", VStr (headline ++ py_str name_t));
     ("description", VStr blurb);
     ("content", VStr (headline ++ py_str name_c ++ newline ++ newline ++ blurb));
     ("link", VStr (py_str (dict_get_or source_config "sourceUrl" (VStr ""))
                    ++ suffix));
     ("timestamp", VStr (isoformat now));
     ("source", VStr ("rss-" ++ py_str source_id));
     ("sourceId", source_id');
     ("sourceName", source_name);
     ("sourceUrl", source_url);
     ("type", VStr "rss_article")]).

Definition generate_mock_rss_data (source_config : pydict) : M (list pyval) :=
  a1 <- mock_article source_config "Breaking: Latest updates from "
          "Important news and updates from our RSS feed source." "/article-1" ;;
  a2 <- mock_article source_config "Technology Update from "
          "Latest technology trends and innovations in the industry."
          "/article-2" ;;
  ret [a1; a2].

Definition rss_headers : list (string * string) :=
  [("User-Agent", "Mozilla/5.0 (Windows NT 10.0; Win64; x64) AppleWebKit/537.36 (KHTML, like Gecko) Chrome/91.0.4472.124 Safari/537.36");
   ("Accept", "application/rss+xml, application/xml, text/xml, */*")].

Definition fetch_rss_data (source_config : pydict) : M (list pyval) :=
  try_catch
    (let feed_url := dict_get source_config "sourceUrl" in
     if negb (truthy feed_url) then ret []
     else
       print (LogRssFetching feed_url) ;;
       response <- session_get feed_url [] rss_headers (Some 15) ;;
       if status response =? 200 then
         content <- lift (text response) ;;
         rss_items <- parse_rss_content content source_config ;;
         match rss_items with
         | _ :: _ =>
             print (LogRssParsed (List.length rss_items) feed_url) ;;
             ret rss_items
         | [] =>
             print (LogRssParseEmpty feed_url) ;;
             generate_mock_rss_data source_config
         end
       else
         print (LogRssStatus feed_url (status response)) ;;
         generate_mock_rss_data source_config)
    (fun e => print (LogRssError e) ;; generate_mock_rss_data source_config).

(** *** Delivery client *)

Definition send_data_to_backend (data : pyval) (source_config : pydict)
  : M (bool * pyval) :=
  try_catch
    (ty <- lift (dict_item source_config "sourceType") ;;
     source_id <- lift (dict_item source_config "sourceId") ;;
     now <- datetime_now ;;
     source_name <- lift (dict_item source_config "sourceName") ;;
     source_type <- lift (dict_item source_config "sourceType") ;;
     source_url <- lift (dict_item source_config "sourceUrl") ;;
     max_entries <- lift (dict_item source_config "maxEntries") ;;
     let payload := VDict
       [("data", data);
        ("type", ty);
        ("sourceId", source_id);
        ("timestamp", VStr (isoformat now));
        ("source_metadata", VDict
           [("sourceName", source_name);
            ("sourceType", source_type);
            ("sourceUrl", source_url);
            ("maxEntries", max_entries)])] in
     response <- session_post (backend_url self ++ "/api/pathway/ingest") payload
                   (Some 30) ;;
     if status response =? 200 then
       result <- lift (json response) ;;
       message <- lift (method_get result "message" (VStr "Success")) ;;
       ret (true, message)
     else
       error_text <- lift (text response) ;;
       ret (false, VStr ("HTTP " ++ py_str (VInt (status response)) ++ ": "
                         ++ error_text)))
    (fun e => ret (false, VStr ("Connection error: " ++ exn_msg e))).

(** *** Scheduler *)

(** One turn of [for data_item in data_items], threading [success_count]. *)
Definition deliver_step (source_config : pydict) (source_name : pyval)
    (success_count : nat) (data_item : pyval) : M nat :=
  r <- send_data_to_backend data_item source_config ;;
  if fst r then print (LogSent source_name (snd r)) ;; ret (S success_count)
  else print (LogSendFailed source_name (snd r)) ;; ret success_count.

(** The dispatch on [sourceType]; [None] is the early [return] for an
    unsupported type. *)
Definition fetch_by_type (source_config : pydict) (source_type : pyval)
  : M (option (list pyval)) :=
  if eq_str source_type "weather" then
    data_items <- fetch_weather_data source_config ;; ret (Some data_items)
  else if eq_str source_type "rss" || eq_str source_type "news" then
    data_items <- fetch_rss_data source_config ;; ret (Some data_items)
  else
    print (LogUnsupported source_type) ;; ret None.

Definition process_source (source_config : pydict) : M unit :=
  source_id <- lift (dict_item source_config "sourceId") ;;
  source_type <- lift (dict_item source_config "sourceType") ;;
  source_name <- lift (dict_item source_config "sourceName") ;;
  print (LogProcessing source_name source_type) ;;
  try_catch
    (fetched <- fetch_by_type source_config source_type ;;
     match fetched with
     | None => ret tt
     | Some [] => print (LogNoData source_name)
     | Some data_items =>
         success_count <-
           for_each data_items (deliver_step source_config source_name) 0%nat ;;
         print (LogSummary source_name success_count (List.length data_items))
     end)
    (fun e => print (LogProcessError source_name e)).

(** [int(q)]: truncation towards zero. *)
Definition int_of (q : Q) : Z := Z.quot (Qnum q) (Zpos (Qden q)).

(** [last_ingested.replace('Z', '+00:00')]: only a string has [replace]. *)
Definition method_replace_Z (v : pyval) : outcome string :=
  match v with
  | VStr s => Ok (replace_Z s)
  | _ => Raise (no_attribute v "replace")
  end.

(** [time_diff >= interval] *)
Definition ge_interval (time_diff : Q) (interval : pyval) : outcome bool :=
  match as_number interval with
  | Some i => Ok (Qle_bool i time_diff)
  | None =>
      Raise (Exn TypeError
        ("'>=' not supported between instances of 'float' and '"
         ++ type_name interval ++ "'"))
  end.

(** [interval - time_diff] for a float [time_diff]: an int operand is made a
    float first, and the difference of the two floats is rounded. *)
Definition minus_float (interval : pyval) (time_diff : Q) : outcome Q :=
  match interval with
  | VInt n =>
      match float_of_int n with
      | Ok x => Ok (binary64 (x - time_diff))
      | Raise e => Raise e
      end
  | VBool b => Ok (binary64 (inject_Z (if b then 1 else 0) - time_diff))
  | VFloat x => Ok (binary64 (x - time_diff))
  | _ =>
      Raise (Exn TypeError
        ("unsupported operand type(s) for -: '" ++ type_name interval
         ++ "' and 'float'"))
  end.

(** The body of the per-source [try] of an eligible source. *)
Definition check_and_process (source : pydict) : M unit :=
  let last_ingested := dict_get source "lastIngestedAt" in
  let interval := dict_get_or source "ingestionInterval" (VInt 300) in
  if negb (truthy last_ingested) then process_source source
  else
    iso <- lift (method_replace_Z last_ingested) ;;
    last_time <- lift (fromisoformat iso) ;;
    current_time <- datetime_now ;;
    let time_diff := total_seconds current_time (drop_tzinfo last_time) in
    due <- lift (ge_interval time_diff interval) ;;
    if due then process_source source
    else
      next_run <- lift (minus_float interval time_diff) ;;
      name <- lift (dict_item source "sourceName") ;;
      print (LogNextRun name (int_of next_run)).

(** [status == 'active' and isActive] *)
Definition eligible (source : pydict) : bool :=
  eq_str (dict_get source "status") "active"
  && truthy (dict_get source "isActive").

Definition source_label (source : pydict) : pyval :=
  dict_get_or source "sourceName" (VStr "unknown").

(** The handler of the per-source [try]. *)
Definition on_source_error (source : pydict) (source_error : exn) : M unit :=
  print (LogSourceError (source_label source) source_error).

(** One turn of [for source in sources] on a source that is a dict. *)
Definition handle_source_dict (source : pydict) : M unit :=
  print (LogSource (source_label source) (dict_get source "status")
           (dict_get source "isActive")) ;;
  if eligible source then
    try_catch (check_and_process source) (on_source_error source)
  else print (LogInactive (source_label source)).

(** One turn of [for source in sources]: the first [source.get] fails on
    anything that is not a dict. *)
Definition handle_source (source : pyval) : M unit :=
  match source with
  | VDict d => handle_source_dict d
  | _ => raise (no_attribute source "get")
  end.

(** [for source in sources: ...] *)
Definition sweep_sources (sources_seq : list pyval) : M unit :=
  for_each sources_seq (fun _ source => handle_source source) tt.

(** The body of [while True]. *)
Definition sweep : M unit :=
  try_catch
    (now <- datetime_now ;;
     print (LogChecking now) ;;
     sources <- get_registered_sources ;;
     if negb (truthy sources) then
       print LogNoSources ;;
       asyncio_sleep 30
     else
       n <- lift (len sources) ;;
       print (LogFound n) ;;
       sources_seq <- lift (iterate sources) ;;
       sweep_sources sources_seq ;;
       print LogWaiting ;;
       asyncio_sleep 60)
    (fun e => print (LogLoopError e) ;; asyncio_sleep 30).

(** [fuel] turns of [while True]. *)
Fixpoint monitoring_loop (fuel : nat) : M unit :=
  match fuel with
  | O => ret tt
  | S n => sweep ;; monitoring_loop n
  end.

Definition run_source_monitoring (fuel : nat) : M unit :=
  print LogBanner ;;
  print (LogBackendUrl (backend_url self)) ;;
  print LogRule ;;
  monitoring_loop fuel.

End AdvancedLiveDataService.

(** ** Runs, and the vocabulary of the properties *)

Definition result {A} (r : outcome A * World * list event) : outcome A :=
  fst (fst r).

Definition world_after {A} (r : outcome A * World * list event) : World :=
  snd (fst r).

Definition trace {A} (r : outcome A * World * list event) : list event := snd r.

(** A computation that returns on every world. *)
Definition never_raises {A} (m : M A) : Prop :=
  forall w, exists a w' t, m w = (Ok a, w', t).

Definition is_print (e : event) : bool :=
  match e with EvPrint _ => true | _ => false end.

Definition is_post (e : event) : bool :=
  match e with EvPost _ _ _ => true | _ => false end.

(** What a trace shows besides printed lines: requests and sleeps. *)
Definition actions (t : list event) : list event :=
  filter (fun e => negb (is_print e)) t.

(** [t] followed by the run [r]. *)
Definition after_trace {A} (t : list event) (r : outcome A * World * list event)
  : outcome A * World * list event :=
  (result r, world_after r, (t ++ trace r)%list).

Section Vocabulary.

Context {RT : Runtime}.
Variable self : service.

(** *** The scheduler *)

(** The two lines printed for a source that is not eligible. *)
Definition inactive_lines (source : pydict) : list event :=
  [EvPrint (LogSource (source_label source) (dict_get source "status")
              (dict_get source "isActive"));
   EvPrint (LogInactive (source_label source))].

(** The registry call fails in transport or is answered with another status
    than 200. *)
Definition registry_down (w : World) : Prop :=
  match reply w with Raise _ => True | Ok r => status r <> 200 end.

Definition registry_request : event :=
  EvGet (VStr (backend_url self ++ "/api/pathway/sources/active")) [] [] None.

Definition registry_warning (w : World) : logline :=
  match reply w with
  | Raise e => LogFetchSourcesError e
  | Ok r => LogFetchSourcesFailed (status r)
  end.

Definition idle_sweep_trace (w : World) : list event :=
  [EvPrint (LogChecking (reading w)); registry_request;
   EvPrint (registry_warning w); EvPrint LogNoSources; EvSleep 30].

(** [process_source] inside the per-source [try]. *)
Definition guarded_process (source : pydict) : M unit :=
  try_catch (process_source self source) (on_source_error source).

Definition source_line (source : pydict) : logline :=
  LogSource (source_label source) (dict_get source "status")
    (dict_get source "isActive").

(** [source.get('ingestionInterval', 300)] *)
Definition interval_of (source : pydict) : pyval :=
  dict_get_or source "ingestionInterval" (VInt 300).

(** The datetime read from lastIngestedAt. *)
Definition timestamp_of (source : pydict) : outcome datetime :=
  match method_replace_Z (dict_get source "lastIngestedAt") with
  | Ok iso => fromisoformat iso
  | Raise e => Raise e
  end.

(** What the loop computes for a source whose lastIngestedAt is set:
    [time_diff >= interval], with [time_diff] the seconds between the
    reading of the clock and the reading of the timestamp. *)
Definition due_check (source : pydict) (w : World) : outcome bool :=
  match timestamp_of source with
  | Ok last_time =>
      ge_interval (total_seconds (reading w) (drop_tzinfo last_time))
        (interval_of source)
  | Raise e => Raise e
  end.

(** *** Due-ness, in the words of the specification *)

(** The instant a datetime stands for, in microseconds of UTC: its reading
    less its UTC offset.  A datetime without an offset is a reading of the
    clock of the machine, whose zone is [local_offset] ahead of UTC. *)
Definition instant (local_offset : Z) (dt : datetime) : Z :=
  wall dt
  - match tzinfo dt with Some offset => offset | None => local_offset end.

(** "A source is due iff lastIngestedAt is absent or
    now - lastIngestedAt >= ingestionInterval": the two times are instants,
    in microseconds, and the interval is in seconds. *)
Definition spec_due (now : Z) (last_ingested_at : option Z)
    (ingestion_interval : Q) : bool :=
  match last_ingested_at with
  | None => true
  | Some last => Qle_bool ingestion_interval ((now - last) # 1000000)
  end.

(** How far the zone of the machine is ahead of the zone a timestamp is
    written in; 0 for a timestamp without an offset. *)
Definition clock_shift (local_offset : Z) (last_time : datetime) : Z :=
  match tzinfo last_time with
  | Some offset => local_offset - offset
  | None => 0
  end.

(** *** The weather strategy *)

Definition base_temp_of (city : string) : Z :=
  match assoc base_temps city with Some t => t | None => 15 end.

Definition coordinates_of (city : string) : pyval :=
  match assoc coords city with
  | Some c => c
  | None => latlon (VInt 0) (VInt 0)
  end.

(** The world after a synthetic record was built: five random draws and one
    reading of the clock. *)
Definition after_mock (w : World) : World :=
  next_clock (next_rnd (next_rnd (next_rnd (next_rnd (next_rnd w))))).

(** The k-th random draw from [w] on. *)
Definition draw (w : World) (k : nat) : Z := rnd w (k + rnd_pos w).

(** The synthetic record, field by field. *)
Definition mock_item (city source_id : pyval) (base_temp : Z) (coordinates : pyval)
    (w : World) : pyval :=
  VDict
    [("city", city);
     ("temperature", VInt (base_temp + (-5 + draw w 0 mod 16)));
     ("description",
      VStr (nth (Z.to_nat (draw w 1 mod 8)) conditions ""));
     ("humidity", VInt (40 + draw w 2 mod 41));
     ("windSpeed", VFloat (draw w 3 mod 151 # 10));
     ("pressure", VInt (990 + draw w 4 mod 31));
     ("timestamp", VStr (isoformat (reading w)));
     ("source", VStr ("pathway-service-" ++ py_str source_id));
     ("sourceId", source_id);
     ("coordinates", coordinates)].

(** [item] is a synthetic record for [city]. *)
Definition synthetic_for (city source_id item : pyval) : Prop :=
  exists w0, result (generate_mock_weather_data city source_id w0) = Ok item.

(** [item] is a record built from an answer of the weather provider. *)
Definition live_from (source : pydict) (item : pyval) : Prop :=
  exists data w0, result (live_weather_data source data w0) = Ok item.

(** The ['city'] entry of a record. *)
Definition item_city (item : pyval) : pyval :=
  match item with VDict d => dict_get d "city" | _ => VNone end.

(** The live record the next network answer leads to, if any: the call
    returns, the status is 200, the body decodes and has every field. *)
Definition live_answer (source : pydict) (w : World) : option pyval :=
  match reply w with
  | Ok r =>
      if status r =? 200 then
        match json r with
        | Ok data =>
            match result (live_weather_data source data (next_net w)) with
            | Ok item => Some item
            | Raise _ => None
            end
        | Raise _ => None
        end
      else None
  | Raise _ => None
  end.

(** *** The feed parser *)

(** The item has a title with text: the parser's condition for keeping it. *)
Definition titled (item : element) : bool :=
  some_text (get_xml_text item ["title"]).




Definition entry (x : pyval) (k : string) : pyval :=
  match x with VDict d => dict_get d k | _ => VNone end.


(** *** The RSS strategy *)

Definition synthetic_article (source_id source_name source_url : pyval)
    (headline blurb suffix : string) (now : datetime) : pyval :=
  VDict
    [("title", VStr (headline ++ py_str source_name));
     ("description", VStr blurb);
     ("content", VStr (headline ++ py_str source_name ++ newline ++ newline
                       ++ blurb));
     ("link", VStr (py_str source_url ++ suffix));
     ("timestamp", VStr (isoformat now));
     ("source", VStr ("rss-" ++ py_str source_id));
     ("sourceId", source_id);
     ("sourceName", source_name);
     ("sourceUrl", source_url);
     ("type", VStr "rss_article")].

(** The two synthetic articles built from world [w] on. *)
Definition mock_articles (source_id source_name source_url : pyval) (w : World)
  : list pyval :=
  [synthetic_article source_id source_name source_url
     "Breaking: Latest updates from "
     "Important news and updates from our RSS feed source." "/article-1"
     (reading w);
   synthetic_article source_id source_name source_url
     "Technology Update from "
     "Latest technology trends and innovations in the industry." "/article-2"
     (reading (next_clock w))].

(** The feed cannot be used: the request fails (connection, timeout), the
    status is not 200, the body cannot be read, or the parser finds no
    article in it. *)
Definition feed_unavailable (source_config : pydict) (w : World) : Prop :=
  match reply w with
  | Raise _ => True
  | Ok r =>
      status r <> 200
      \/ match text r with
         | Raise _ => True
         | Ok content =>
             result (parse_rss_content content source_config (next_net w)) = Ok []
         end
  end.

(** [source_type == 'rss' or source_type == 'news'] *)
Definition is_feed_type (source_type : pyval) : bool :=
  eq_str source_type "rss" || eq_str source_type "news".

(** *** The delivery client *)

(** The source configuration has the five entries the envelope copies. *)
Definition envelope_ready (source_config : pydict) : bool :=
  match lookup source_config "sourceType", lookup source_config "sourceId",
        lookup source_config "sourceName", lookup source_config "sourceUrl",
        lookup source_config "maxEntries" with
  | Some _, Some _, Some _, Some _, Some _ => true
  | _, _, _, _, _ => false
  end.

Definition envelope (data : pyval) (source_config : pydict) (now : datetime)
  : pyval :=
  VDict
    [("data", data);
     ("type", dict_get source_config "sourceType");
     ("sourceId", dict_get source_config "sourceId");
     ("timestamp", VStr (isoformat now));
     ("source_metadata", VDict
        [("sourceName", dict_get source_config "sourceName");
         ("sourceType", dict_get source_config "sourceType");
         ("sourceUrl", dict_get source_config "sourceUrl");
         ("maxEntries", dict_get source_config "maxEntries")])].

Definition connection_error (e : exn) : bool * pyval :=
  (false, VStr ("Connection error: " ++ exn_msg e)).

(** What the client returns for each answer to its POST. *)
Definition delivery_verdict (answer : outcome response) : bool * pyval :=
  match answer with
  | Raise e => connection_error e
  | Ok r =>
      if status r =? 200 then
        match json r with
        | Raise e => connection_error e
        | Ok body =>
            match method_get body "message" (VStr "Success") with
            | Ok message => (true, message)
            | Raise e => connection_error e
            end
        end
      else
        match text r with
        | Ok error_text =>
            (false, VStr ("HTTP " ++ py_str (VInt (status r)) ++ ": " ++ error_text))
        | Raise e => connection_error e
        end
  end.

Definition ingest_request (data : pyval) (source_config : pydict) (w : World)
  : event :=
  EvPost (backend_url self ++ "/api/pathway/ingest")
    (envelope data source_config (reading w)) (Some 30).

End Vocabulary.

(** ** More vocabulary: what a run emits, and how deliveries are counted *)

(** Every event of every run of [m] satisfies [P]. *)
Definition emits {A} (P : event -> Prop) (m : M A) : Prop :=
  forall w, Forall P (trace (m w)).

(** [m] emits nothing. *)
Definition silent {A} (m : M A) : Prop := forall w, trace (m w) = [].

(** [m] emits nothing and leaves the network where it is. *)
Definition offline {A} (m : M A) : Prop :=
  forall w,
    trace (m w) = []
    /\ net (world_after (m w)) = net w
    /\ net_pos (world_after (m w)) = net_pos w.

Definition is_sleep (e : event) : bool :=
  match e with EvSleep _ => true | _ => false end.

Definition weather_url : string := "http://api.openweathermap.org/data/2.5/weather".

Section MoreVocabulary.

Context {RT : Runtime}.
Variable self : service.

Definition registry_url : string := backend_url self ++ "/api/pathway/sources/active".

Definition ingest_url : string := backend_url self ++ "/api/pathway/ingest".

(** The request the weather strategy makes for one city. *)
Definition weather_request (city api_key : pyval) : event :=
  EvGet (VStr weather_url)
    [("q", city); ("appid", api_key); ("units", VStr "metric")] [] (Some 10).

(** The events the components of the service may emit: printed lines, POSTs
    of an envelope to the ingest endpoint with a timeout of 30 seconds, and
    GETs to the registry, to the weather provider (timeout 10) or to a feed
    (browser headers, timeout 15).  No component sleeps. *)
Definition component_event (e : event) : Prop :=
  match e with
  | EvPrint _ => True
  | EvSleep _ => False
  | EvPost url payload timeout =>
      url = ingest_url /\ timeout = Some 30
      /\ exists data source_config now, payload = envelope data source_config now
  | EvGet url params headers timeout =>
      (url = VStr registry_url /\ params = [] /\ headers = [] /\ timeout = None)
      \/ (exists city api_key, e = weather_request city api_key)
      \/ (params = [] /\ headers = rss_headers /\ timeout = Some 15)
  end.

(** The events of the monitoring loop: those of the components, and the
    sleeps of 30 and 60 seconds. *)
Definition service_event (e : event) : Prop :=
  match e with
  | EvSleep secs => secs = 30 \/ secs = 60
  | _ => component_event e
  end.

(** How many of the [n] answers from position [pos] on make a delivery
    succeed. *)
Fixpoint accepted_from (answers : nat -> outcome response) (pos n : nat) : nat :=
  match n with
  | O => O
  | S k =>
      ((if fst (delivery_verdict (answers pos)) then 1 else 0)
       + accepted_from answers (S pos) k)%nat
  end.

(** The world after one delivery: one reading of the clock for the envelope,
    one answer of the network. *)
Definition after_delivery (w : World) : World := next_net (next_clock w).

(** The POSTs of a delivery loop over [data_items], from world [w] on. *)
Fixpoint ingest_requests (data_items : list pyval) (source_config : pydict)
    (w : World) : list event :=
  match data_items with
  | [] => []
  | data :: rest =>
      ingest_request self data source_config w
      :: ingest_requests rest source_config (after_delivery w)
  end.

(** What the registry client returns for each answer to its GET. *)
Definition registry_answer (answer : outcome response) : pyval :=
  match answer with
  | Raise _ => VList []
  | Ok r =>
      if status r =? 200 then
        match json r with
        | Ok (VDict body) => dict_get_or body "sources" (VList [])
        | _ => VList []
        end
      else VList []
  end.

(** The text [get_xml_text] would take for one candidate tag: the text of
    the first child with that tag, when it is not empty. *)
Definition candidate_text (item : element) (tag : string) : option string :=
  match find_child item tag with
  | Some found =>
      match text_of found with
      | Some t => if (t =? "")%string then None else Some t
      | None => None
      end
  | None => None
  end.

(** Every child of [item] has a tag in the Atom namespace, as ElementTree
    names the children of an Atom entry. *)
Definition atom_children (item : element) : Prop :=
  Forall (fun c => exists local, tag_of c = atom_ns ++ local) (children_of item).

(** The source has the three entries [process_source] reads first. *)
Definition has_process_keys (source_config : pydict) : bool :=
  match lookup source_config "sourceId", lookup source_config "sourceType",
        lookup source_config "sourceName" with
  | Some _, Some _, Some _ => true
  | _, _, _ => false
  end.

Definition is_dict (v : pyval) : bool :=
  match v with VDict _ => true | _ => false end.

Definition count_sleeps (t : list event) : nat :=
  List.length (filter is_sleep t).

(** The line a delivery prints. *)
Definition delivery_line (name : pyval) (verdict : bool * pyval) : logline :=
  if fst verdict then LogSent name (snd verdict)
  else LogSendFailed name (snd verdict).

End MoreVocabulary.

(** ** A concrete runtime and concrete worlds, to run the model on *)

Module Demo.

Definition demo_str (v : pyval) : string :=
  match v with
  | VStr s => s
  | VNone => "None"
  | VBool b => if b then "True" else "False"
  | VInt n => NilZero.string_of_int (Z.to_int n)
  | _ => "<value>"
  end.

(** 2024-01-01T00:00:00, in microseconds since the epoch. *)
Definition t0 : Z := 1704067200000000.

Definition demo_fromisoformat (s : string) : outcome datetime :=
  if (s =? "2024-01-01T00:00:00+00:00")%string then Ok (Datetime t0 (Some 0))
  else if (s =? "2024-01-01T00:00:00")%string then Ok (Datetime t0 None)
  else Raise (Exn ValueError "Invalid isoformat string").

Definition titled_item (t : string) : element :=
  Element "item" None [Element "title" (Some t) []].

Definition feed15 : element :=
  Element "rss" None
    [Element "channel" None
       (Element "title" (Some "Channel") []
        :: map titled_item ["a1"; "a2"; "a3"; "a4"; "a5"; "a6"; "a7"; "a8"; "a9";
                       "a10"; "a11"; "a12"; "a13"; "a14"; "a15"])].

Definition feed_mixed : element :=
  Element "rss" None
    [Element "channel" None
       [titled_item "first";
        Element "item" None [Element "description" (Some "no title here") []];
        titled_item "third"]].



Definition demo_fromstring (content : string) : outcome element :=
  if (content =? "<feed15/>")%string then Ok feed15
  else if (content =? "<mixed/>")%string then Ok feed_mixed
  else if (content =? "<rss/>")%string then Ok (Element "rss" None [])
  else Raise (Exn ParseError "syntax error: line 1, column 0").

#[export] Instance demo_runtime : Runtime := {
  py_str := demo_str;
  isoformat := fun _ => "2024-01-01T00:05:00";
  fromisoformat := demo_fromisoformat;
  ET_fromstring := demo_fromstring
}.

Definition svc : service := Service "http://localhost:5001".

(** A world whose network answers every call with [r], whose random draws
    are 0, 1, 2, ... and whose clock always reads [now]. *)
Definition world_of (r : outcome response) (now : Z) : World :=
  MkWorld (fun _ => r) 0 (fun n => Z.of_nat n) 0 (fun _ => now) 0.

Definition unreachable : outcome response :=
  Raise (Exn ClientError "Cannot connect to host").

Definition http (st : Z) (body : string) (js : outcome pyval) : outcome response :=
  Ok (Response st (Ok body) js).

Definition not_json : outcome pyval :=
  Raise (Exn ValueError "Expecting value: line 1 column 1 (char 0)").

Definition weather_source (config : pyval) : pydict :=
  [("sourceId", VStr "w1"); ("sourceType", VStr "weather");
   ("sourceName", VStr "City weather"); ("sourceUrl", VStr "");
   ("maxEntries", VInt 100); ("status", VStr "active");
   ("isActive", VBool true); ("config", config)].

Definition rss_source (url : pyval) : pydict :=
  [("sourceId", VStr "r1"); ("sourceType", VStr "rss");
   ("sourceName", VStr "Tech feed"); ("sourceUrl", url);
   ("maxEntries", VInt 50); ("status", VStr "active");
   ("isActive", VBool true)].

(** A world whose network gives the answers of [rs] in order and is
    unreachable afterwards. *)
Definition scripted (rs : list (outcome response)) (now : Z) : World :=
  MkWorld (fun n => nth n rs unreachable) 0 (fun n => Z.of_nat n) 0
    (fun _ => now) 0.

(** The registry answers 200 with the given sources. *)
Definition registry_lists (sources : list pyval) : outcome response :=
  http 200 "(json)" (Ok (VDict [("sources", VList sources)])).

Definition stamped_source : pydict :=
  ("lastIngestedAt", VStr "2024-01-01T00:00:00Z") :: weather_source (VDict []).

(** The clock reads exactly 300 seconds after the timestamp. *)
Definition at_the_interval : World := world_of unreachable (t0 + 300000000).

(** One microsecond earlier. *)
Definition just_before : World := world_of unreachable (t0 + 299999999).

Definition paused_source : pydict :=
  [("sourceId", VStr "w2"); ("sourceType", VStr "weather");
   ("sourceName", VStr "Paused"); ("status", VStr "active");
   ("isActive", VBool false)].

(** The backend answers 200 with the JSON object that has message "ok". *)
Definition accepted : outcome response :=
  http 200 "(json)" (Ok (VDict [("message", VStr "ok")])).

(** An Atom feed as ElementTree reads it: every tag carries the namespace. *)
Definition atom_entry (t : string) : element :=
  Element (atom_ns ++ "entry") None
    [Element (atom_ns ++ "title") (Some t) [];
     Element (atom_ns ++ "summary") (Some "An entry of an Atom feed") []].

Definition atom_feed : element :=
  Element (atom_ns ++ "feed") None
    [Element (atom_ns ++ "title") (Some "Feed") [];
     atom_entry "first"; atom_entry "second"].

(** The runtime of the examples, with an XML parser that also reads the
    document "<atom/>", as [atom_feed]. *)
Definition atom_runtime : Runtime := {|
  py_str := demo_str;
  isoformat := fun _ => "2024-01-01T00:05:00";
  fromisoformat := demo_fromisoformat;
  ET_fromstring := fun content =>
    if (content =? "<atom/>")%string then Ok atom_feed
    else demo_fromstring content
|}.

(** A source of a type the service has no strategy for. *)
Definition social_source : pydict :=
  [("sourceId", VStr "s1"); ("sourceType", VStr "twitter");
   ("sourceName", VStr "Timeline")].

(** A weather source that has lost its sourceId. *)
Definition anonymous_weather_source : pydict :=
  [("sourceType", VStr "weather"); ("sourceName", VStr "City weather")].

Definition two_cities : pydict :=
  [("cities", VList [VStr "Paris"; VStr "Rome"])].

Definition two_cities_with_key : pydict :=
  [("cities", VList [VStr "Paris"; VStr "Rome"]); ("apiKey", VStr "k-123")].


(** A runtime that reads two more timestamps: one written with the offset
    +05:30, naming the instant [t0], and the first second of year 1. *)
Definition zoned_fromisoformat (s : string) : outcome datetime :=
  if (s =? "2024-01-01T05:30:00+05:30")%string then
    Ok (Datetime (t0 + 19800000000) (Some 19800000000))
  else if (s =? "0001-01-01T00:00:00")%string then
    Ok (Datetime (t0 - 63839664000000000) None)
  else demo_fromisoformat s.

Definition zoned_runtime : Runtime := {|
  py_str := demo_str;
  isoformat := fun _ => "2024-01-01T00:05:00";
  fromisoformat := zoned_fromisoformat;
  ET_fromstring := demo_fromstring
|}.

Definition offset_stamped_source : pydict :=
  ("lastIngestedAt", VStr "2024-01-01T05:30:00+05:30") :: weather_source (VDict []).

(** Last ingested in year 1, and to be polled every 63839664300 seconds:
    the seconds from then to 2024-01-01T00:05:00. *)
Definition ancient_source : pydict :=
  ("lastIngestedAt", VStr "0001-01-01T00:00:00")
  :: ("ingestionInterval", VInt 63839664300) :: weather_source (VDict []).

End Demo.

(** ** The library functions of the model on small inputs *)

Example strip_both_ends : strip "  two words  " = "two words".
Proof. reflexivity. Qed.

Example replace_Z_utc :
  replace_Z "2024-01-01T00:00:00Z" = "2024-01-01T00:00:00+00:00".
Proof. reflexivity. Qed.

Example findall_skips_the_root_and_goes_deep :
  map text_of
    (findall_desc
       (Element "item" (Some "root")
          [Element "channel" None
             [Element "item" (Some "a") [Element "item" (Some "b") []];
              Element "title" (Some "t") []];
           Element "item" (Some "c") []])
       "item")
  = [Some "a"; Some "b"; Some "c"].
Proof. reflexivity. Qed.

Example first_candidate_with_text :
  get_xml_text
    (Element "item" None
       [Element "summary" (Some " short ") [];
        Element "description" None []])
    ["description"; "summary"]
  = Some "short".
Proof. reflexivity. Qed.

Example randint_stays_in_range :
  map (fun r => -5 + r mod (10 - -5 + 1)) [0; 15; 16; -1] = [-5; 10; -5; 10].
Proof. reflexivity. Qed.

(** The floats Python prints for 0.1 and for 2^53 + 1 (a tie, which goes to
    the even significand), 2^53 + 3 (the tie goes up), a whole number of
    seconds, and a number of seconds one microsecond below a whole number
    that is too large to keep the microsecond. *)
Example binary64_is_the_nearest_float :
  map (fun q => Qred (binary64 q))
    [1 # 10; inject_Z (2 ^ 53 + 1); inject_Z (2 ^ 53 + 3); inject_Z (-300);
     299999999 # 1000000; 63839664299999999 # 1000000]
  = [3602879701896397 # 36028797018963968; inject_Z (2 ^ 53);
     inject_Z (2 ^ 53 + 4); inject_Z (-300);
     2638827897866307 # 8796093022208; inject_Z 63839664300].
Proof. vm_compute. reflexivity. Qed.

Example int_too_large_for_a_float :
  float_of_int (2 ^ 1024 - 2 ^ 970 - 1) = Ok (inject_Z (2 ^ 1024 - 2 ^ 971))
  /\ float_of_int (2 ^ 1024 - 2 ^ 970)
     = Raise (Exn OverflowError "int too large to convert to float").
Proof. split; vm_compute; reflexivity. Qed.

(** ** Reasoning about computations *)

Lemma never_raises_ret {A} (a : A) : never_raises (ret a).
Proof. intros w. now exists a, w, []. Qed.

Lemma never_raises_emit (e : event) : never_raises (emit e).
Proof. intros w. now exists tt, w, [e]. Qed.

Lemma never_raises_bind {A B} (m : M A) (k : A -> M B) :
  never_raises m -> (forall a, never_raises (k a)) -> never_raises (bind m k).
Proof.
  intros Hm Hk w. unfold bind.
  destruct (Hm w) as (a & w1 & t1 & ->).
  destruct (Hk a w1) as (b & w2 & t2 & ->).
  now exists b, w2, (t1 ++ t2)%list.
Qed.

Lemma never_raises_try {A} (body : M A) (handler : exn -> M A) :
  (forall e, never_raises (handler e)) -> never_raises (try_catch body handler).
Proof.
  intros Hh w. unfold try_catch.
  destruct (body w) as [[[a | e] w1] t1].
  - now exists a, w1, t1.
  - destruct (Hh e w1) as (b & w2 & t2 & ->).
    now exists b, w2, (t1 ++ t2)%list.
Qed.

Lemma never_raises_for_each {A S} (body : S -> A -> M S) (xs : list A) :
  (forall acc x, never_raises (body acc x)) ->
  forall acc, never_raises (for_each xs body acc).
Proof.
  intros Hb. induction xs as [| x rest IH]; intros acc; cbn.
  - apply never_raises_ret.
  - apply never_raises_bind; [apply Hb | exact IH].
Qed.

Lemma never_raises_print (l : logline) : never_raises (print l).
Proof. apply never_raises_emit. Qed.

Lemma never_raises_sleep (secs : Z) : never_raises (asyncio_sleep secs).
Proof. apply never_raises_emit. Qed.

Create HintDb total.
#[local] Hint Resolve never_raises_ret never_raises_emit never_raises_print
  never_raises_sleep never_raises_bind never_raises_try never_raises_for_each
  : total.

(** A handler made of prints, sleeps and a returned value never raises, and
    so does the [try] it closes. *)
Ltac handler_returns := apply never_raises_try; intros; auto with total.

Lemma bind_run {A B} (m : M A) (k : A -> M B) w a w1 t1 :
  m w = (Ok a, w1, t1) ->
  bind m k w = (result (k a w1), world_after (k a w1), (t1 ++ trace (k a w1))%list).
Proof.
  intros H. unfold bind, result, world_after, trace. rewrite H.
  now destruct (k a w1) as [[r w2] t2].
Qed.

Lemma for_each_app {A S} (body : S -> A -> M S) (xs ys : list A) acc w :
  for_each (xs ++ ys) body acc w
  = bind (for_each xs body acc) (for_each ys body) w.
Proof.
  revert acc w. induction xs as [| x rest IH]; intros acc w; cbn.
  - unfold bind, ret. destruct (for_each ys body acc w) as [[r w2] t2].
    reflexivity.
  - unfold bind in *. destruct (body acc x w) as [[[a | e] w1] t1]; [| reflexivity].
    rewrite IH.
    destruct (for_each rest body a w1) as [[[b | e] w2] t2]; [| reflexivity].
    destruct (for_each ys body b w2) as [[r w3] t3].
    now rewrite app_assoc.
Qed.

Lemma actions_app (t1 t2 : list event) :
  actions (t1 ++ t2) = (actions t1 ++ actions t2)%list.
Proof. apply filter_app. Qed.

(** ** Floats *)

Section FloatFacts.

Lemma round_half_even_bounds (q : Q) :
  Qnum q / Zpos (Qden q) <= round_half_even q <= Qnum q / Zpos (Qden q) + 1.
Proof.
  unfold round_half_even.
  destruct (2 * (Qnum q mod Zpos (Qden q)) ?= Zpos (Qden q));
    try destruct (Z.even _); lia.
Qed.

Lemma floor_log2_below (n : Z) :
  n <> 0 ->
  Z.abs n < 2 ^ 33 * 1000000 ->
  floor_log2 (n # 1000000) <= 32.
Proof.
  intros Hn Hrange. unfold floor_log2. cbn [Qnum Qden].
  assert (Hlog : Z.log2 (Z.abs n) < 53).
  { apply Z.log2_lt_pow2; [lia |].
    assert (2 ^ 33 * 1000000 < 2 ^ 53) by reflexivity. lia. }
  change (Z.log2 (Zpos 1000000)) with 19.
  destruct (Z.eq_dec (Z.log2 (Z.abs n) - 19) 33) as [Hk | Hk].
  - rewrite Hk.
    destruct (Qle_bool (scale2 33 1) (Z.abs n # 1000000)) eqn:E; [| lia].
    exfalso. apply Qle_bool_iff in E. unfold scale2, Qle in E.
    cbn [Z.leb Z.compare Qnum Qden Qmult inject_Z] in E.
    change (2 ^ 33) with 8589934592 in *. lia.
  - destruct (Qle_bool _ _); lia.
Qed.

Lemma bool_eq_by_iff (a b : bool) : (a = true <-> b = true) -> a = b.
Proof. destruct a, b; intuition congruence. Qed.

(** For readings less than 2^33 seconds apart (272 years), comparing a whole
    number of seconds with the float that [total_seconds] returns gives what
    the exact difference gives: the float is then closer than a microsecond
    to the exact value, and it does not pass a whole number on the way. *)
Lemma float_comparison_exact (i n : Z) :
  Z.abs n < 2 ^ 33 * 1000000 ->
  Qle_bool (inject_Z i) (binary64 (n # 1000000))
  = Qle_bool (inject_Z i) (n # 1000000).
Proof.
  intros Hrange. apply bool_eq_by_iff. rewrite !Qle_bool_iff.
  unfold binary64. cbn [Qnum].
  destruct (Z.eqb_spec n 0) as [-> | Hn].
  - unfold Qle. cbn [Qnum Qden inject_Z]. lia.
  - pose proof (floor_log2_below n Hn Hrange) as Hlog.
    set (e := floor_log2 (n # 1000000) - 52) in *.
    unfold scale2.
    destruct (Z.leb_spec 0 e) as [He | _]; [lia |].
    destruct (Z.leb_spec 0 (- e)) as [_ | He]; [| lia].
    assert (Hs : 2 ^ 20 <= 2 ^ (- e)) by (apply Z.pow_le_mono_r; lia).
    change (2 ^ 20) with 1048576 in Hs.
    destruct (2 ^ (- e)) as [| s | s] eqn:Es; try lia.
    pose proof (round_half_even_bounds ((n # 1000000) * inject_Z (Zpos s)))
      as Hm.
    set (m := round_half_even ((n # 1000000) * inject_Z (Zpos s))) in *.
    unfold Qmult, inject_Z in Hm. cbn [Qnum Qden] in Hm.
    rewrite Pos.mul_1_r in Hm.
    pose proof (Z.div_mod (n * Zpos s) 1000000 ltac:(lia)) as Hdiv.
    pose proof (Z.mod_pos_bound (n * Zpos s) 1000000 ltac:(lia)) as Hmod.
    unfold Qle, Qdiv, Qinv. cbn [Qnum Qden Qmult inject_Z Pos.mul].
    split; intros H.
    + destruct (Z_le_gt_dec (i * 1000000) n) as [Hle | Hgt]; [lia |].
      assert ((n + 1) * Zpos s <= i * 1000000 * Zpos s)
        by (apply Z.mul_le_mono_nonneg_r; lia).
      lia.
    + assert (i * 1000000 * Zpos s <= n * Zpos s)
        by (apply Z.mul_le_mono_nonneg_r; lia).
      lia.
Qed.

End FloatFacts.

(** ** The scheduler *)

Section SchedulerFacts.

Context {RT : Runtime}.
Variable self : service.

Lemma handle_ineligible (source : pydict) (w : World) :
  eligible source = false ->
  handle_source self (VDict source) w = (Ok tt, w, inactive_lines source).
Proof.
  intros H. cbn. unfold handle_source_dict, bind, print, emit. now rewrite H.
Qed.

Lemma sweep_sources_cons (source : pyval) (rest : list pyval) (w : World) :
  sweep_sources self (source :: rest) w
  = bind (handle_source self source) (fun _ => sweep_sources self rest) w.
Proof.
  unfold sweep_sources. cbn. unfold bind.
  destruct (handle_source self source w) as [[[[] | e] w1] t1]; reflexivity.
Qed.

Lemma sweep_sources_skip (source : pydict) (rest : list pyval) (w : World) :
  eligible source = false ->
  sweep_sources self (VDict source :: rest) w
  = after_trace (inactive_lines source) (sweep_sources self rest w).
Proof.
  intros H. rewrite sweep_sources_cons.
  now rewrite (bind_run _ _ _ _ _ _ (handle_ineligible source w H)).
Qed.

(** C8.  A source whose status is not "active", or whose isActive is false
    (or anything falsy), costs the sweep two printed lines and nothing else:
    handling it returns, consumes no answer of the network, of the clock or
    of the random generator, and issues no request.  In a whole sweep,
    leaving the source out changes neither the outcome, nor the final world,
    nor the requests and sleeps of the trace: no fetch and no delivery is
    made on its behalf. *)
Theorem ineligible_source_is_only_logged (source : pydict) :
  eq_str (dict_get source "status") "active" = false
  \/ truthy (dict_get source "isActive") = false ->
  (forall w,
      handle_source self (VDict source) w = (Ok tt, w, inactive_lines source))
  /\ actions (inactive_lines source) = []
  /\ (forall before rest w,
        let with_it := sweep_sources self (before ++ VDict source :: rest) w in
        let without := sweep_sources self (before ++ rest) w in
        result with_it = result without
        /\ world_after with_it = world_after without
        /\ actions (trace with_it) = actions (trace without)).
Proof.
  intros H.
  assert (Hel : eligible source = false).
  { unfold eligible. destruct H as [-> | ->]; [reflexivity | apply andb_false_r]. }
  split; [| split].
  - intros w. now apply handle_ineligible.
  - reflexivity.
  - intros before rest w. cbv zeta.
    assert (Happ : forall xs ys,
               sweep_sources self (xs ++ ys) w
               = bind (sweep_sources self xs)
                   (fun _ => sweep_sources self ys) w).
    { intros xs ys. unfold sweep_sources. rewrite for_each_app. unfold bind.
      now destruct (for_each xs _ tt w) as [[[[] | e] w1] t1]. }
    rewrite !Happ. unfold bind.
    destruct (sweep_sources self before w) as [[[[] | e] w1] t1];
      [| now repeat split].
    rewrite (sweep_sources_skip _ _ _ Hel).
    destruct (sweep_sources self rest w1) as [[r w2] t2].
    unfold after_trace, result, world_after, trace. cbn.
    repeat split. now rewrite !actions_app.
Qed.

(** *** An unreachable registry *)

Lemma registry_down_empty (w : World) :
  registry_down w ->
  get_registered_sources self w
  = (Ok (VList []), next_net w, [registry_request self; EvPrint (registry_warning w)]).
Proof.
  unfold registry_down, registry_warning, get_registered_sources, try_catch,
    bind, session_get, registry_request.
  destruct (reply w) as [r | e]; intros H.
  - destruct (Z.eqb_spec (status r) 200) as [E | _]; [contradiction |].
    reflexivity.
  - reflexivity.
Qed.

Lemma sweep_never_raises : never_raises (sweep self).
Proof. unfold sweep. handler_returns. Qed.

(** C7.  When the registry call fails in transport or is answered with a
    status other than 200, the registry client returns the empty list, the
    sweep prints its lines, sleeps 30 seconds and returns normally, and the
    loop goes on with its next turn; a sweep never raises, whatever the
    world. *)
Theorem registry_failure_gives_idle_sweep (w : World) :
  registry_down w ->
  get_registered_sources self w
  = (Ok (VList []), next_net w, [registry_request self; EvPrint (registry_warning w)])
  /\ sweep self w = (Ok tt, next_net (next_clock w), idle_sweep_trace self w)
  /\ (forall fuel,
        monitoring_loop self (S fuel) w
        = after_trace (idle_sweep_trace self w)
            (monitoring_loop self fuel (next_net (next_clock w))))
  /\ never_raises (sweep self).
Proof.
  intros Hdown.
  assert (Hsweep : sweep self w = (Ok tt, next_net (next_clock w), idle_sweep_trace self w)).
  { unfold sweep, try_catch, bind at 1, datetime_now.
    unfold bind at 1. cbn [print emit].
    assert (Hdown' : registry_down (next_clock w)) by exact Hdown.
    unfold bind at 1. rewrite (registry_down_empty _ Hdown'). cbn.
    unfold idle_sweep_trace, registry_warning, reply. reflexivity. }
  split; [now apply registry_down_empty | split; [exact Hsweep | split]].
  - intros fuel. cbn [monitoring_loop]. unfold bind. rewrite Hsweep.
    unfold after_trace, result, world_after, trace.
    now destruct (monitoring_loop self fuel _) as [[r w2] t2].
  - exact sweep_never_raises.
Qed.


(** *** Which eligible source is due *)

Lemma handle_eligible (source : pydict) (w : World) :
  eligible source = true ->
  handle_source_dict self source w
  = after_trace [EvPrint (source_line source)]
      (try_catch (check_and_process self source) (on_source_error source) w).
Proof.
  intros H. unfold handle_source_dict, bind, print, emit. rewrite H.
  unfold after_trace, result, world_after, trace, source_line.
  now destruct (try_catch _ _ w) as [[r w1] t1].
Qed.

Lemma never_ingested_runs (source : pydict) (w : World) :
  truthy (dict_get source "lastIngestedAt") = false ->
  try_catch (check_and_process self source) (on_source_error source) w
  = guarded_process self source w.
Proof. intros H. unfold guarded_process, try_catch, check_and_process. now rewrite H. Qed.

(** What the per-source [try] does for a source that has a timestamp. *)
Lemma stamped_check (source : pydict) (w : World) :
  truthy (dict_get source "lastIngestedAt") = true ->
  try_catch (check_and_process self source) (on_source_error source) w
  = match timestamp_of source with
    | Raise e => (Ok tt, w, [EvPrint (LogSourceError (source_label source) e)])
    | Ok last_time =>
        let time_diff := total_seconds (reading w) (drop_tzinfo last_time) in
        match ge_interval time_diff (interval_of source) with
        | Raise e =>
            (Ok tt, next_clock w,
             [EvPrint (LogSourceError (source_label source) e)])
        | Ok true => guarded_process self source (next_clock w)
        | Ok false =>
            match minus_float (interval_of source) time_diff with
            | Ok next_run =>
                match dict_item source "sourceName" with
                | Ok name =>
                    (Ok tt, next_clock w,
                     [EvPrint (LogNextRun name (int_of next_run))])
                | Raise e =>
                    (Ok tt, next_clock w,
                     [EvPrint (LogSourceError (source_label source) e)])
                end
            | Raise e =>
                (Ok tt, next_clock w,
                 [EvPrint (LogSourceError (source_label source) e)])
            end
        end
    end.
Proof.
  intros Htruthy. unfold check_and_process, timestamp_of, interval_of.
  rewrite Htruthy. cbn [negb].
  unfold try_catch at 1. unfold bind at 1.
  destruct (method_replace_Z _) as [iso | e]; [| reflexivity]. cbn [lift].
  unfold bind at 1.
  destruct (fromisoformat iso) as [last_time | e]; [| reflexivity]. cbn [lift].
  unfold bind at 1. cbn [datetime_now]. unfold bind at 1. cbv zeta.
  destruct (ge_interval _ _) as [[|] | e]; cbn [lift]; [| | reflexivity].
  - unfold guarded_process, try_catch.
    destruct (process_source self source (next_clock w)) as [[[[] | e] w1] t1];
      reflexivity.
  - unfold bind. destruct (minus_float _ _); cbn [lift]; [| reflexivity].
    destruct (dict_item source "sourceName"); reflexivity.
Qed.

Lemma check_true_runs_process_source (source : pydict) (w : World) :
  eligible source = true ->
  truthy (dict_get source "lastIngestedAt") = true ->
  due_check source w = Ok true ->
  handle_source_dict self source w
  = after_trace [EvPrint (source_line source)]
      (guarded_process self source (next_clock w)).
Proof.
  intros Hel Hlast. rewrite (handle_eligible _ _ Hel), (stamped_check _ _ Hlast).
  unfold due_check. destruct (timestamp_of source) as [last_time | e];
    [| discriminate].
  cbv zeta. now intros ->.
Qed.

Lemma check_false_is_only_logged (source : pydict) (w : World) :
  eligible source = true ->
  truthy (dict_get source "lastIngestedAt") = true ->
  due_check source w = Ok false ->
  exists line,
    handle_source_dict self source w
    = (Ok tt, next_clock w, [EvPrint (source_line source); EvPrint line]).
Proof.
  intros Hel Hlast. rewrite (handle_eligible _ _ Hel), (stamped_check _ _ Hlast).
  unfold due_check. destruct (timestamp_of source) as [last_time | e];
    [| discriminate].
  cbv zeta. intros ->.
  destruct (minus_float _ _) as [next_run | e]; [| now eexists].
  destruct (dict_item source "sourceName"); now eexists.
Qed.

(** The clock the loop reads is the specification's clock, shifted by the
    difference of the two zones. *)
Lemma reading_difference (local_offset : Z) (now last_time : datetime) :
  tzinfo now = None ->
  wall now - wall last_time
  = instant local_offset now + clock_shift local_offset last_time
    - instant local_offset last_time.
Proof.
  intros Hnow. unfold instant, clock_shift. rewrite Hnow.
  destruct (tzinfo last_time); lia.
Qed.

Lemma check_is_spec_due_on_shifted_clock (source : pydict) (w : World)
    (local_offset : Z) (last_time : datetime) (interval : Z) :
  timestamp_of source = Ok last_time ->
  as_number (interval_of source) = Some (inject_Z interval) ->
  Z.abs (wall (reading w) - wall last_time) < 2 ^ 33 * 1000000 ->
  due_check source w
  = Ok (spec_due
          (instant local_offset (reading w) + clock_shift local_offset last_time)
          (Some (instant local_offset last_time)) (inject_Z interval)).
Proof.
  intros Hstamp Hint Hrange. unfold due_check, ge_interval, total_seconds.
  rewrite Hstamp, Hint. cbn [drop_tzinfo wall spec_due].
  rewrite (float_comparison_exact _ _ Hrange).
  now rewrite (reading_difference local_offset (reading w) last_time eq_refl).
Qed.

(** C1.  What the loop does for an eligible source.  Without a
    lastIngestedAt (absent, null, empty) it runs [process_source].  With one,
    it compares [time_diff >= interval]: when that holds it runs
    [process_source], when not it prints one more line and does nothing
    else; the interval is 300 when the key is unset.  For a readable
    timestamp, a whole number of seconds as interval and readings less than
    2^33 seconds apart, the comparison is the rule of the specification,
    inclusive boundary and all, but on a clock that is ahead of the real one
    by the difference between the zone of the machine and the zone of the
    timestamp: the loop takes the difference of the two readings and drops
    the offset of the timestamp.  So it follows the specification for a
    timestamp without an offset or written in the zone of the machine, and
    is early or late by the difference of the zones otherwise. *)
Theorem due_check_compares_wall_clock_readings (source : pydict) (w : World) :
  eligible source = true ->
  (truthy (dict_get source "lastIngestedAt") = false ->
   handle_source_dict self source w
   = after_trace [EvPrint (source_line source)] (guarded_process self source w))
  /\ (truthy (dict_get source "lastIngestedAt") = true ->
      (due_check source w = Ok true ->
       handle_source_dict self source w
       = after_trace [EvPrint (source_line source)]
           (guarded_process self source (next_clock w)))
      /\ (due_check source w = Ok false ->
          exists line,
            handle_source_dict self source w
            = (Ok tt, next_clock w,
               [EvPrint (source_line source); EvPrint line])))
  /\ (lookup source "ingestionInterval" = None -> interval_of source = VInt 300)
  /\ (forall local_offset last_time interval,
        timestamp_of source = Ok last_time ->
        as_number (interval_of source) = Some (inject_Z interval) ->
        Z.abs (wall (reading w) - wall last_time) < 2 ^ 33 * 1000000 ->
        due_check source w
        = Ok (spec_due
                (instant local_offset (reading w)
                 + clock_shift local_offset last_time)
                (Some (instant local_offset last_time)) (inject_Z interval))
        /\ (clock_shift local_offset last_time = 0 ->
            due_check source w
            = Ok (spec_due (instant local_offset (reading w))
                    (Some (instant local_offset last_time))
                    (inject_Z interval)))).
Proof.
  intros Hel. split; [| split; [| split]].
  - intros Habsent.
    now rewrite (handle_eligible _ _ Hel), (never_ingested_runs _ _ Habsent).
  - intros Hlast. split.
    + now apply check_true_runs_process_source.
    + now apply check_false_is_only_logged.
  - intros Hunset. unfold interval_of, dict_get_or. now rewrite Hunset.
  - intros local_offset last_time interval Hstamp Hint Hrange.
    pose proof (check_is_spec_due_on_shifted_clock source w local_offset
                  last_time interval Hstamp Hint Hrange) as Hcheck.
    split; [exact Hcheck |].
    intros Hzone. rewrite Hcheck, Hzone. now rewrite Z.add_0_r.
Qed.

(** *** A weather source without cities *)

Lemma fetch_weather_no_city (source config : pydict) (w : World) :
  lookup source "config" = Some (VDict config) ->
  lookup config "cities" = Some (VList []) ->
  fetch_weather_data source w = (Ok [], w, []).
Proof.
  intros Hconfig Hcities.
  unfold fetch_weather_data, fetch_weather_body, try_catch, bind, dict_get_or.
  rewrite Hconfig. cbn. unfold dict_get_or. rewrite Hcities. reflexivity.
Qed.

(** C10.  When the config of a weather source holds an explicitly empty
    cities list, the weather strategy returns the empty list without any
    request, and [process_source] then prints its two lines and returns: no
    delivery is attempted. *)
Theorem empty_cities_list_means_no_delivery (source config : pydict) :
  lookup source "config" = Some (VDict config) ->
  lookup config "cities" = Some (VList []) ->
  (forall w, fetch_weather_data source w = (Ok [], w, []))
  /\ (forall source_id source_name w,
        lookup source "sourceId" = Some source_id ->
        lookup source "sourceType" = Some (VStr "weather") ->
        lookup source "sourceName" = Some source_name ->
        process_source self source w
        = (Ok tt, w,
           [EvPrint (LogProcessing source_name (VStr "weather"));
            EvPrint (LogNoData source_name)])).
Proof.
  intros Hconfig Hcities. split.
  - intros w. now apply fetch_weather_no_city with config.
  - intros source_id source_name w Hid Hty Hname.
    unfold process_source, dict_item. rewrite Hid, Hty, Hname.
    unfold bind at 1. cbn [lift]. unfold bind at 1. cbn [lift].
    unfold bind at 1. cbn [lift]. unfold bind at 1. cbn [print emit].
    unfold try_catch, fetch_by_type. cbn [eq_str String.eqb Ascii.eqb Bool.eqb].
    unfold bind at 1. unfold bind at 1.
    rewrite (fetch_weather_no_city _ _ _ Hconfig Hcities). reflexivity.
Qed.


End SchedulerFacts.

(** ** The weather strategy *)

Section WeatherFacts.

Context {RT : Runtime}.

Lemma generate_mock_hashable (city source_id : pyval) (w : World) :
  hashable city = true ->
  exists base_temp coordinates,
    table_get base_temps city 15 = Ok base_temp
    /\ get_coordinates city = Ok coordinates
    /\ generate_mock_weather_data city source_id w
       = (Ok (mock_item city source_id base_temp coordinates w), after_mock w, []).
Proof.
  intros Hh. unfold generate_mock_weather_data, get_coordinates.
  destruct city; try discriminate; cbn [table_get];
    eexists _, _; (split; [reflexivity | split; [reflexivity |]]);
    reflexivity.
Qed.

Lemma generate_mock_string (city : string) (source_id : pyval) (w : World) :
  generate_mock_weather_data (VStr city) source_id w
  = (Ok (mock_item (VStr city) source_id (base_temp_of city) (coordinates_of city) w),
     after_mock w, []).
Proof. reflexivity. Qed.

Lemma choice_in_conditions (r : Z) :
  In (nth (Z.to_nat (r mod 8)) conditions "") conditions.
Proof.
  apply nth_In. pose proof (Z.mod_pos_bound r 8 ltac:(lia)) as H.
  change (List.length conditions) with 8%nat. lia.
Qed.

(** C9.  Whatever the random draws, the synthetic record of a city has the
    temperature of the base table for that city (15 when the city is not in
    the table) plus an offset between -5 and 10, a description out of the
    eight fixed conditions, a humidity between 40 and 80, a wind speed
    between 0 and 15, a pressure between 990 and 1020, and the coordinates
    of the built-in table, or lat 0 and lon 0 for a city that is not in it. *)
Theorem synthetic_weather_item_ranges (city : string) (source_id : pyval) (w : World) :
  exists offset condition humidity wind pressure stamp,
    generate_mock_weather_data (VStr city) source_id w
    = (Ok (VDict
         [("city", VStr city);
          ("temperature", VInt (base_temp_of city + offset));
          ("description", VStr condition);
          ("humidity", VInt humidity);
          ("windSpeed", VFloat wind);
          ("pressure", VInt pressure);
          ("timestamp", VStr stamp);
          ("source", VStr ("pathway-service-" ++ py_str source_id));
          ("sourceId", source_id);
          ("coordinates", coordinates_of city)]),
       after_mock w, [])
    /\ -5 <= offset <= 10
    /\ In condition conditions
    /\ 40 <= humidity <= 80
    /\ (0 <= wind /\ wind <= 15)%Q
    /\ 990 <= pressure <= 1020
    /\ (assoc base_temps city = None -> base_temp_of city = 15)
    /\ (assoc coords city = None ->
        coordinates_of city = VDict [("lat", VInt 0); ("lon", VInt 0)]).
Proof.
  rewrite generate_mock_string. unfold mock_item.
  pose proof (Z.mod_pos_bound (draw w 0) 16 ltac:(lia)) as H0.
  pose proof (Z.mod_pos_bound (draw w 2) 41 ltac:(lia)) as H2.
  pose proof (Z.mod_pos_bound (draw w 3) 151 ltac:(lia)) as H3.
  pose proof (Z.mod_pos_bound (draw w 4) 31 ltac:(lia)) as H4.
  eexists _, _, _, _, _, _. split; [reflexivity |].
  repeat split; try lia.
  - apply choice_in_conditions.
  - unfold Qle. cbn. lia.
  - unfold Qle. cbn. lia.
  - intros H. unfold base_temp_of. now rewrite H.
  - intros H. unfold coordinates_of. now rewrite H.
Qed.

(** *** Every city gets a record *)

Lemma mock_for_city_ok (source : pydict) source_id acc city (w : World) :
  lookup source "sourceId" = Some source_id ->
  hashable city = true ->
  exists item,
    mock_for_city source acc city w = (Ok (acc ++ [item])%list, after_mock w, [])
    /\ synthetic_for city source_id item
    /\ item_city item = city.
Proof.
  intros Hid Hh.
  destruct (generate_mock_hashable city source_id w Hh)
    as (base_temp & coordinates & _ & _ & Hrun).
  exists (mock_item city source_id base_temp coordinates w).
  split; [| split].
  - unfold mock_for_city, dict_item. rewrite Hid.
    unfold bind at 1. cbn [lift]. unfold bind. now rewrite Hrun.
  - exists w. now rewrite Hrun.
  - reflexivity.
Qed.

(** One turn of the loop: a live record when the provider answered one, a
    synthetic record for the city in every other case. *)
Lemma city_step_ok (source : pydict) source_id api_key acc city (w : World) :
  lookup source "sourceId" = Some source_id ->
  hashable city = true ->
  exists item w1 t,
    city_step source api_key acc city w = (Ok (acc ++ [item])%list, w1, t)
    /\ (use_real_api api_key = false ->
        synthetic_for city source_id item /\ item_city item = city
        /\ w1 = after_mock w /\ t = [])
    /\ (use_real_api api_key = true ->
        match live_answer source w with
        | Some live => item = live
        | None => synthetic_for city source_id item /\ item_city item = city
        end).
Proof.
  intros Hid Hh. unfold city_step, live_answer.
  destruct (use_real_api api_key) eqn:Hapi.
  - (* the provider is asked *)
    unfold try_catch, bind at 1, bind at 1, session_get.
    destruct (reply w) as [r | e].
    + destruct (status r =? 200).
      * unfold bind at 1. destruct (json r) as [data | e]; cbn [lift].
        -- unfold bind at 1, result.
           destruct (live_weather_data source data (next_net w))
             as [[[item | e] w1] t1]; cbn [fst].
           ++ eexists _, _, _. split; [reflexivity |].
              split; [discriminate | reflexivity].
           ++ destruct (mock_for_city_ok source source_id acc city w1 Hid Hh)
                as (item & Hrun & Hsyn & Hcity).
              unfold bind, print, emit. rewrite Hrun.
              eexists _, _, _. split; [reflexivity |].
              split; [discriminate | now split].
        -- destruct (mock_for_city_ok source source_id acc city (next_net w) Hid Hh)
             as (item & Hrun & Hsyn & Hcity).
           unfold bind, print, emit. rewrite Hrun.
           eexists _, _, _. split; [reflexivity |].
           split; [discriminate | now split].
      * destruct (mock_for_city_ok source source_id acc city (next_net w) Hid Hh)
          as (item & Hrun & Hsyn & Hcity).
        unfold ret. rewrite Hrun.
        eexists _, _, _. split; [reflexivity |].
        split; [discriminate | now split].
    + destruct (mock_for_city_ok source source_id acc city (next_net w) Hid Hh)
        as (item & Hrun & Hsyn & Hcity).
      unfold bind, print, emit. rewrite Hrun.
      eexists _, _, _. split; [reflexivity |].
      split; [discriminate | now split].
  - (* no key, or the placeholder *)
    destruct (mock_for_city_ok source source_id acc city w Hid Hh)
      as (item & Hrun & Hsyn & Hcity).
    unfold try_catch, bind, ret. rewrite Hrun.
    eexists _, _, _. split; [reflexivity |].
    split; [now repeat split | discriminate].
Qed.


(** Without a live record (the request fails, the status is not 200, the
    body does not decode or lacks a field), the city gets a synthetic one. *)
Lemma city_without_live_answer (source : pydict) source_id api_key acc city
    (w : World) :
  lookup source "sourceId" = Some source_id ->
  hashable city = true ->
  live_answer source w = None ->
  exists item w1 t,
    city_step source api_key acc city w = (Ok (acc ++ [item])%list, w1, t)
    /\ synthetic_for city source_id item
    /\ item_city item = city.
Proof.
  intros Hid Hh Hnone.
  destruct (city_step_ok source source_id api_key acc city w Hid Hh)
    as (item & w1 & t & Hstep & Hmock & Hlive).
  exists item, w1, t. split; [exact Hstep |].
  destruct (use_real_api api_key).
  - specialize (Hlive eq_refl). now rewrite Hnone in Hlive.
  - now destruct (Hmock eq_refl) as (Hsyn & Hcity & _).
Qed.

Lemma live_answer_live (source : pydict) (w : World) item :
  live_answer source w = Some item -> live_from source item.
Proof.
  unfold live_answer, live_from. intros H.
  destruct (reply w) as [r | e]; [| discriminate].
  destruct (status r =? 200); [| discriminate].
  destruct (json r) as [data | e]; [| discriminate].
  exists data, (next_net w).
  destruct (result _) as [live | e]; [| discriminate].
  now injection H as ->.
Qed.

Lemma cities_loop (source : pydict) source_id api_key (cs : list pyval) :
  lookup source "sourceId" = Some source_id ->
  forallb hashable cs = true ->
  forall acc w,
  exists items w1 t,
    for_each cs (city_step source api_key) acc w = (Ok (acc ++ items)%list, w1, t)
    /\ Forall2 (fun city item =>
                  synthetic_for city source_id item \/ live_from source item)
         cs items
    /\ (use_real_api api_key = false ->
        Forall2 (fun city item => synthetic_for city source_id item) cs items
        /\ map item_city items = cs /\ t = []).
Proof.
  intros Hid. induction cs as [| city rest IH]; intros Hh acc w.
  - exists [], w, []. cbn. rewrite app_nil_r. repeat split; constructor.
  - cbn in Hh. apply andb_prop in Hh as [Hcity Hrest].
    destruct (city_step_ok source source_id api_key acc city w Hid Hcity)
      as (item & w1 & t1 & Hstep & Hmock & Hlive).
    destruct (IH Hrest (acc ++ [item])%list w1)
      as (items & w2 & t2 & Hloop & Hall & Hquiet).
    exists (item :: items), w2, (t1 ++ t2)%list.
    split; [| split].
    + cbn [for_each]. unfold bind. rewrite Hstep, Hloop.
      now rewrite <- app_assoc.
    + constructor; [| exact Hall].
      destruct (use_real_api api_key).
      * specialize (Hlive eq_refl).
        destruct (live_answer source w) as [live |] eqn:Hans.
        -- right. subst item. now apply live_answer_live with w.
        -- now left.
      * left. now apply Hmock.
    + intros Hoff.
      destruct (Hmock Hoff) as (Hsyn & Hc & _ & ->).
      destruct (Hquiet Hoff) as (Hsyns & Hcs & ->).
      repeat split.
      * now constructor.
      * cbn. now rewrite Hc, Hcs.
Qed.

(** [config.apiKey] absent, or the placeholder: the provider is not asked. *)
Lemma no_key_no_api (config : pydict) :
  lookup config "apiKey" = None \/ lookup config "apiKey" = Some (VStr "demo-key") ->
  use_real_api (dict_get_or config "apiKey" VNone) = false.
Proof. unfold dict_get_or. now intros [-> | ->]. Qed.

Lemma weather_fetch_never_raises (source : pydict) :
  never_raises (fetch_weather_data source).
Proof. unfold fetch_weather_data. handler_returns. Qed.

(** C2, as the code has it.  The weather strategy never raises.  An error
    met while one city is handled is answered with a synthetic record for
    that city: for a source with a sourceId whose cities are hashable values
    (strings), the result has one record per city, live when the provider
    answered one and synthetic otherwise.  An error outside the handling of
    a city (a config that is not a dict, cities that cannot be iterated, no
    sourceId for the synthetic record) gives the empty list.  In particular,
    without an apiKey or with "demo-key", and with cities absent (the
    default single city) or non-empty, the result is non-empty, is made of
    synthetic records only, needs no request, and the cities of its records
    are the requested cities, in order. *)
Theorem weather_fetch_falls_back_per_city (source : pydict) :
  never_raises (fetch_weather_data source)
  /\ (forall e w w1 t,
        fetch_weather_body source w = (Raise e, w1, t) ->
        fetch_weather_data source w
        = (Ok [], w1, (t ++ [EvPrint (LogWeatherError e)])%list))
  /\ (forall source_id config cs,
        lookup source "sourceId" = Some source_id ->
        dict_get_or source "config" (VDict []) = VDict config ->
        iterate (dict_get_or config "cities" (VList [VStr "New York"])) = Ok cs ->
        forallb hashable cs = true ->
        forall w, exists items w1 t,
          fetch_weather_data source w = (Ok items, w1, t)
          /\ Forall2 (fun city item =>
                        synthetic_for city source_id item \/ live_from source item)
               cs items
          /\ ((lookup config "apiKey" = None
               \/ lookup config "apiKey" = Some (VStr "demo-key")) ->
              (lookup config "cities" = None \/ cs <> []) ->
              items <> []
              /\ Forall2 (fun city item => synthetic_for city source_id item)
                   cs items
              /\ map item_city items = cs
              /\ t = []))
  /\ (forall source_id api_key acc city w,
        lookup source "sourceId" = Some source_id ->
        hashable city = true ->
        live_answer source w = None ->
        exists item w1 t,
          city_step source api_key acc city w = (Ok (acc ++ [item])%list, w1, t)
          /\ synthetic_for city source_id item
          /\ item_city item = city).
Proof.
  split; [apply weather_fetch_never_raises | split; [| split]].
  3: { intros source_id api_key acc city w Hid Hh Hnone.
       exact (city_without_live_answer _ _ _ _ _ _ Hid Hh Hnone). }
  - intros e w w1 t Hbody. unfold fetch_weather_data, try_catch. now rewrite Hbody.
  - intros source_id config cs Hid Hconfig Hiter Hh w.
    destruct (cities_loop source source_id (dict_get_or config "apiKey" VNone)
                cs Hid Hh [] w) as (items & w1 & t & Hloop & Hall & Hquiet).
    exists items, w1, t. split; [| split; [exact Hall |]].
    + unfold fetch_weather_data, fetch_weather_body, try_catch.
      rewrite Hconfig. cbn [method_get].
      unfold bind at 1. cbn [lift]. unfold bind at 1. cbn [lift].
      unfold bind at 1. rewrite Hiter. cbn [lift].
      now rewrite Hloop.
    + intros Hkey Hcities.
      destruct (Hquiet (no_key_no_api _ Hkey)) as (Hsyn & Hmap & ->).
      repeat split; try assumption.
      intros ->. apply Forall2_length in Hall. cbn in Hall.
      destruct Hcities as [Hnone | Hne].
      * unfold dict_get_or in Hiter. rewrite Hnone in Hiter. cbn in Hiter.
        injection Hiter as <-. discriminate.
      * apply Hne. now destruct cs.
Qed.


End WeatherFacts.

(** ** The feed parser *)

Section StringFacts.

Lemma rstrip_idempotent (s : string) : rstrip (rstrip s) = rstrip s.
Proof.
  induction s as [| c r IH]; [reflexivity |].
  cbn [rstrip].
  destruct (is_space c && (rstrip r =? "")%string) eqn:E; [reflexivity |].
  cbn [rstrip]. now rewrite IH, E.
Qed.

Lemma lstrip_head (s : string) :
  lstrip s = "" \/ exists c r, lstrip s = String c r /\ is_space c = false.
Proof.
  induction s as [| c r IH]; [now left |].
  cbn [lstrip]. destruct (is_space c) eqn:E; [exact IH |].
  right. now exists c, r.
Qed.

Lemma lstrip_rstrip_head (c : ascii) (r : string) :
  is_space c = false -> lstrip (rstrip (String c r)) = rstrip (String c r).
Proof. intros E. cbn [rstrip]. rewrite E. cbn. now rewrite E. Qed.

Lemma strip_idempotent (s : string) : strip (strip s) = strip s.
Proof.
  unfold strip.
  destruct (lstrip_head s) as [-> | (c & r & -> & E)]; [reflexivity |].
  rewrite (lstrip_rstrip_head c r E). apply rstrip_idempotent.
Qed.


Lemma length_app_string (s1 s2 : string) :
  String.length (s1 ++ s2) = (String.length s1 + String.length s2)%nat.
Proof. induction s1 as [| c r IH]; cbn; [reflexivity | now rewrite IH]. Qed.

End StringFacts.

Section ParserFacts.

Context {RT : Runtime}.

Lemma get_xml_text_stripped (item : element) (tags : list string) (d : string) :
  get_xml_text item tags = Some d -> strip d = d.
Proof.
  induction tags as [| tag rest IH]; cbn [get_xml_text]; [discriminate |].
  destruct (find_child item tag) as [found |]; [| exact IH].
  destruct (text_of found) as [t |]; [| exact IH].
  destruct (negb (t =? "")%string); [| exact IH].
  intros [= <-]. apply strip_idempotent.
Qed.

Lemma item_step_untitled (source_config : pydict) acc item (w : World) :
  titled item = false ->
  rss_item_step source_config acc item w = (Ok acc, w, []).
Proof.
  unfold titled. intros H.
  unfold rss_item_step, rss_item_body, try_catch. now rewrite H.
Qed.


Lemma item_step_total (source_config : pydict) acc item (w : World) :
  exists added w1 t,
    rss_item_step source_config acc item w = (Ok (acc ++ added)%list, w1, t)
    /\ (List.length added <= 1)%nat.
Proof.
  unfold rss_item_step, try_catch.
  destruct (rss_item_body source_config acc item w) as [[[acc' | e] w1] t1] eqn:Hbody.
  - unfold rss_item_body in Hbody.
    destruct (some_text (get_xml_text item ["title"])).
    + unfold bind, lift, ret in Hbody.
      destruct (if some_text _ then _ else _) as [[[stamp | e] w2] t2];
        [| discriminate].
      repeat (destruct (dict_item source_config _); [| discriminate]).
      injection Hbody as <- <- <-.
      eexists [_], _, _. split; [reflexivity | cbn; lia].
    + injection Hbody as <- <- <-.
      exists [], w, []. rewrite app_nil_r. split; [reflexivity | cbn; lia].
  - exists [], w1, (t1 ++ [EvPrint (LogItemError e)])%list.
    rewrite app_nil_r. split; [reflexivity | cbn; lia].
Qed.

Lemma items_loop_total (source_config : pydict) (items : list element) :
  forall acc w,
  exists out w1 t,
    for_each items (rss_item_step source_config) acc w
    = (Ok (acc ++ out)%list, w1, t)
    /\ (List.length out <= List.length items)%nat.
Proof.
  induction items as [| item rest IH]; intros acc w.
  - exists [], w, []. rewrite app_nil_r. now split.
  - destruct (item_step_total source_config acc item w)
      as (added & w1 & t1 & Hstep & Hlen).
    destruct (IH (acc ++ added)%list w1) as (out & w2 & t2 & Hloop & Hlen').
    exists (added ++ out)%list, w2, (t1 ++ t2)%list. split.
    + cbn [for_each]. unfold bind. rewrite Hstep, Hloop. now rewrite app_assoc.
    + rewrite length_app. cbn [List.length]. lia.
Qed.


Lemma parse_of_root (content : string) (source_config : pydict) root (w : World) :
  ET_fromstring content = Ok root ->
  parse_rss_content content source_config w
  = for_each (firstn 10 (matched_items root)) (rss_item_step source_config) [] w.
Proof.
  intros Hroot. unfold parse_rss_content, try_catch, bind. rewrite Hroot.
  cbn [lift].
  destruct (items_loop_total source_config (firstn 10 (matched_items root)) [] w)
    as (out & w1 & t & -> & _).
  reflexivity.
Qed.




Lemma parse_returns (content : string) (source_config : pydict) :
  never_raises (parse_rss_content content source_config).
Proof. unfold parse_rss_content. handler_returns. Qed.

(** C5.  The parser never raises, whatever the content and the source
    configuration.  Content that does not parse as XML gives the empty list.
    Each turn of the item loop returns with the articles gathered so far
    plus at most one; when the body of a turn fails, the error is printed,
    the articles gathered so far are kept and the loop goes on with the
    remaining nodes. *)
Theorem parser_never_raises (content : string) (source_config : pydict) :
  never_raises (parse_rss_content content source_config)
  /\ (forall e w,
        ET_fromstring content = Raise e ->
        parse_rss_content content source_config w
        = (Ok [], w, [EvPrint (LogXmlError e)]))
  /\ (forall acc item w, exists added w1 t,
        rss_item_step source_config acc item w = (Ok (acc ++ added)%list, w1, t)
        /\ (List.length added <= 1)%nat)
  /\ (forall e acc item rest w w1 t,
        rss_item_body source_config acc item w = (Raise e, w1, t) ->
        for_each (item :: rest) (rss_item_step source_config) acc w
        = after_trace (t ++ [EvPrint (LogItemError e)])
            (for_each rest (rss_item_step source_config) acc w1)).
Proof.
  split; [| split; [| split]].
  - apply parse_returns.
  - intros e w Hroot. unfold parse_rss_content, try_catch, bind. now rewrite Hroot.
  - intros acc item w. apply item_step_total.
  - intros e acc item rest w w1 t Hbody.
    cbn [for_each]. unfold bind, rss_item_step at 1, try_catch. rewrite Hbody.
    unfold bind, print, emit, ret, after_trace, result, world_after, trace.
    now destruct (for_each rest _ acc w1) as [[r w2] t2].
Qed.


End ParserFacts.

(** ** The RSS strategy *)

Section RssFacts.

Context {RT : Runtime}.
Variable self : service.

Lemma generate_mock_rss_ok (source_config : pydict) source_id source_name source_url
    (w : World) :
  lookup source_config "sourceId" = Some source_id ->
  lookup source_config "sourceName" = Some source_name ->
  lookup source_config "sourceUrl" = Some source_url ->
  generate_mock_rss_data source_config w
  = (Ok (mock_articles source_id source_name source_url w),
     next_clock (next_clock w), []).
Proof.
  intros Hid Hname Hurl.
  unfold generate_mock_rss_data, mock_article, dict_item, dict_get_or.
  rewrite Hid, Hname, Hurl. reflexivity.
Qed.

(** What the strategy returns for a source with a URL: the parsed articles
    when there are some, the two synthetic articles otherwise. *)
Lemma fetch_rss_with_url (source_config : pydict) source_id source_name source_url
    (w : World) :
  lookup source_config "sourceId" = Some source_id ->
  lookup source_config "sourceName" = Some source_name ->
  lookup source_config "sourceUrl" = Some source_url ->
  truthy source_url = true ->
  exists articles w1 t,
    fetch_rss_data source_config w = (Ok articles, w1, t)
    /\ articles <> []
    /\ (feed_unavailable source_config w ->
        exists w0, articles = mock_articles source_id source_name source_url w0).
Proof.
  intros Hid Hname Hurl Htruthy.
  pose proof (fun w0 => generate_mock_rss_ok source_config _ _ _ w0 Hid Hname Hurl)
    as Hmock.
  unfold fetch_rss_data, feed_unavailable, dict_get. rewrite Hurl, Htruthy.
  cbn [negb]. unfold try_catch, bind at 1, print, emit, bind at 1, session_get.
  destruct (reply w) as [r | e].
  - destruct (Z.eqb_spec (status r) 200) as [E | E].
    + unfold bind at 1. destruct (text r) as [content | e]; cbn [lift].
      * unfold bind at 1.
        destruct (parse_returns content source_config (next_net w))
          as (articles & w1 & t & Hparse).
        rewrite Hparse. destruct articles as [| a rest].
        -- unfold bind, print, emit. rewrite Hmock.
           eexists _, _, _. split; [reflexivity |].
           split; [discriminate | intros _; now eexists].
        -- unfold bind, print, emit, ret.
           eexists _, _, _. split; [reflexivity |].
           split; [discriminate |].
           intros [Hst | Hempty]; [contradiction |].
           unfold result in Hempty. cbn in Hempty. discriminate.
      * unfold bind, print, emit. rewrite Hmock.
        eexists _, _, _. split; [reflexivity |].
        split; [discriminate | intros _; now eexists].
    + unfold bind, print, emit. rewrite Hmock.
      eexists _, _, _. split; [reflexivity |].
      split; [discriminate | intros _; now eexists].
  - unfold bind, print, emit. rewrite Hmock.
    eexists _, _, _. split; [reflexivity |].
    split; [discriminate | intros _; now eexists].
Qed.

Lemma fetch_rss_without_url (source_config : pydict) (w : World) :
  truthy (dict_get source_config "sourceUrl") = false ->
  fetch_rss_data source_config w = (Ok [], w, []).
Proof.
  intros H. unfold fetch_rss_data, try_catch. now rewrite H.
Qed.

Lemma feed_type_not_weather (source_type : pyval) :
  is_feed_type source_type = true -> eq_str source_type "weather" = false.
Proof.
  unfold is_feed_type. destruct source_type; try discriminate. cbn [eq_str].
  intros H. apply orb_prop in H as [H | H]; apply String.eqb_eq in H; now subst.
Qed.

(** C3, as the code has it.  For a source with a sourceId, a sourceName and
    a non-empty sourceUrl, the RSS strategy always returns a non-empty list,
    and when the feed cannot be used (the request fails or times out, the
    status is not 200, or the parser finds no article) the list is exactly
    the two synthetic articles, whose titles carry the sourceName and whose
    links are the sourceUrl followed by /article-1 and /article-2.  For a
    source whose sourceUrl is absent or empty the strategy returns the empty
    list without any request, and [process_source] then prints that no data
    was retrieved and delivers nothing. *)
Theorem rss_fallback_two_articles (source_config : pydict) :
  (forall source_id source_name source_url,
      lookup source_config "sourceId" = Some source_id ->
      lookup source_config "sourceName" = Some source_name ->
      lookup source_config "sourceUrl" = Some source_url ->
      truthy source_url = true ->
      forall w, exists articles w1 t,
        fetch_rss_data source_config w = (Ok articles, w1, t)
        /\ articles <> []
        /\ (feed_unavailable source_config w ->
            (exists w0,
                articles = mock_articles source_id source_name source_url w0)
            /\ map (fun a => entry a "title") articles
               = [VStr ("Breaking: Latest updates from " ++ py_str source_name);
                  VStr ("Technology Update from " ++ py_str source_name)]
            /\ map (fun a => entry a "link") articles
               = [VStr (py_str source_url ++ "/article-1");
                  VStr (py_str source_url ++ "/article-2")]))
  /\ (truthy (dict_get source_config "sourceUrl") = false ->
      (forall w, fetch_rss_data source_config w = (Ok [], w, []))
      /\ (forall source_id source_type source_name w,
            lookup source_config "sourceId" = Some source_id ->
            lookup source_config "sourceType" = Some source_type ->
            is_feed_type source_type = true ->
            lookup source_config "sourceName" = Some source_name ->
            process_source self source_config w
            = (Ok tt, w,
               [EvPrint (LogProcessing source_name source_type);
                EvPrint (LogNoData source_name)]))).
Proof.
  split.
  - intros source_id source_name source_url Hid Hname Hurl Htruthy w.
    destruct (fetch_rss_with_url source_config _ _ _ w Hid Hname Hurl Htruthy)
      as (articles & w1 & t & Hrun & Hne & Hmock).
    exists articles, w1, t. split; [exact Hrun | split; [exact Hne |]].
    intros Hdown. destruct (Hmock Hdown) as (w0 & ->).
    split; [now exists w0 | split; reflexivity].
  - intros Hnourl. split.
    + intros w. now apply fetch_rss_without_url.
    + intros source_id source_type source_name w Hid Hty Hfeed Hname.
      unfold process_source, dict_item. rewrite Hid, Hty, Hname.
      unfold bind at 1. cbn [lift]. unfold bind at 1. cbn [lift].
      unfold bind at 1. cbn [lift]. unfold bind at 1. cbn [print emit].
      unfold try_catch, fetch_by_type.
      rewrite (feed_type_not_weather _ Hfeed).
      fold (is_feed_type source_type). rewrite Hfeed.
      unfold bind at 1. unfold bind at 1.
      rewrite (fetch_rss_without_url _ _ Hnourl). reflexivity.
Qed.


End RssFacts.

(** ** The delivery client *)

Section DeliveryFacts.

Context {RT : Runtime}.
Variable self : service.

Lemma send_with_envelope (data : pyval) (source_config : pydict) (w : World) :
  envelope_ready source_config = true ->
  send_data_to_backend self data source_config w
  = (Ok (delivery_verdict (reply w)), next_net (next_clock w),
     [ingest_request self data source_config w]).
Proof.
  unfold envelope_ready. intros H.
  destruct (lookup source_config "sourceType") as [ty |] eqn:Hty; [| discriminate].
  destruct (lookup source_config "sourceId") as [sid |] eqn:Hid; [| discriminate].
  destruct (lookup source_config "sourceName") as [name |] eqn:Hname; [| discriminate].
  destruct (lookup source_config "sourceUrl") as [url |] eqn:Hurl; [| discriminate].
  destruct (lookup source_config "maxEntries") as [mx |] eqn:Hmx; [| discriminate].
  unfold send_data_to_backend, ingest_request, envelope, dict_item, dict_get.
  rewrite Hty, Hid, Hname, Hurl, Hmx.
  unfold try_catch, delivery_verdict, connection_error.
  repeat (unfold bind at 1; cbn [lift datetime_now session_post]).
  change (reply (next_clock w)) with (reply w).
  destruct (reply w) as [r | e]; [| reflexivity].
  destruct (status r =? 200).
  - destruct (json r) as [body | e]; [| reflexivity].
    destruct (method_get body "message" (VStr "Success")); reflexivity.
  - destruct (text r); reflexivity.
Qed.

Lemma send_without_envelope (data : pyval) (source_config : pydict) (w : World) :
  envelope_ready source_config = false ->
  exists e w1,
    send_data_to_backend self data source_config w
    = (Ok (connection_error e), w1, []).
Proof.
  unfold envelope_ready, send_data_to_backend, try_catch, dict_item, connection_error.
  intros H.
  destruct (lookup source_config "sourceType") as [ty |];
    [| eexists _, _; reflexivity].
  destruct (lookup source_config "sourceId") as [sid |];
    [| eexists _, _; reflexivity].
  destruct (lookup source_config "sourceName") as [name |];
    [| eexists _, _; reflexivity].
  destruct (lookup source_config "sourceUrl") as [url |];
    [| eexists _, _; reflexivity].
  destruct (lookup source_config "maxEntries") as [mx |];
    [discriminate | eexists _, _; reflexivity].
Qed.





End DeliveryFacts.

(** ** What the service emits *)

Section TraceFacts.

Lemma silent_emits {A} (P : event -> Prop) (m : M A) : silent m -> emits P m.
Proof. intros H w. rewrite H. constructor. Qed.

Lemma silent_ret {A} (a : A) : silent (ret a).
Proof. now intros w. Qed.

Lemma silent_raise {A} (e : exn) : silent (@raise A e).
Proof. now intros w. Qed.

Lemma silent_lift {A} (o : outcome A) : silent (lift o).
Proof. now intros w. Qed.

Lemma silent_random_raw : silent random_raw.
Proof. now intros w. Qed.

Lemma silent_datetime_now : silent datetime_now.
Proof. now intros w. Qed.

Lemma silent_bind {A B} (m : M A) (k : A -> M B) :
  silent m -> (forall a, silent (k a)) -> silent (bind m k).
Proof.
  intros Hm Hk w. unfold bind. specialize (Hm w). unfold trace in *.
  destruct (m w) as [[[a | e] w1] t1]; cbn in *.
  - specialize (Hk a w1). unfold trace in Hk.
    destruct (k a w1) as [[r w2] t2]. cbn in *. now subst.
  - exact Hm.
Qed.

Lemma emits_emit (P : event -> Prop) (e : event) : P e -> emits P (emit e).
Proof. intros H w. cbn. now constructor. Qed.

Lemma emits_bind {A B} (P : event -> Prop) (m : M A) (k : A -> M B) :
  emits P m -> (forall a, emits P (k a)) -> emits P (bind m k).
Proof.
  intros Hm Hk w. unfold bind. specialize (Hm w). unfold trace in *.
  destruct (m w) as [[[a | e] w1] t1]; cbn in *.
  - specialize (Hk a w1). unfold trace in Hk.
    destruct (k a w1) as [[r w2] t2]. cbn in *. now apply Forall_app.
  - exact Hm.
Qed.

Lemma emits_try {A} (P : event -> Prop) (body : M A) (handler : exn -> M A) :
  emits P body -> (forall e, emits P (handler e)) -> emits P (try_catch body handler).
Proof.
  intros Hb Hh w. unfold try_catch. specialize (Hb w). unfold trace in *.
  destruct (body w) as [[[a | e] w1] t1]; cbn in *.
  - exact Hb.
  - specialize (Hh e w1). unfold trace in Hh.
    destruct (handler e w1) as [[r w2] t2]. cbn in *. now apply Forall_app.
Qed.

Lemma emits_for_each {A S} (P : event -> Prop) (body : S -> A -> M S)
    (xs : list A) :
  (forall acc x, emits P (body acc x)) ->
  forall acc, emits P (for_each xs body acc).
Proof.
  intros Hb. induction xs as [| x rest IH]; intros acc; cbn [for_each].
  - apply silent_emits, silent_ret.
  - apply emits_bind; [apply Hb | exact IH].
Qed.

Lemma emits_weaken {A} (P Q : event -> Prop) (m : M A) :
  (forall e, P e -> Q e) -> emits P m -> emits Q m.
Proof. intros HPQ Hm w. eapply Forall_impl; [exact HPQ | apply Hm]. Qed.

End TraceFacts.

(** Takes a goal [silent m] or [emits P m] apart along the structure of [m]. *)
Ltac silent_go :=
  repeat first
    [ apply silent_ret | apply silent_raise | apply silent_lift
    | apply silent_random_raw | apply silent_datetime_now
    | apply silent_bind; [| intros ] ].

Ltac emits_go :=
  repeat first
    [ apply emits_emit; solve [exact I | cbn; auto]
    | apply emits_bind; [| intros ]
    | apply emits_try; [| intros ]
    | apply emits_for_each; intros
    | apply silent_emits; solve [silent_go]
    | match goal with
      | |- emits _ (if ?b then _ else _) => destruct b
      | |- emits _ (match ?x with _ => _ end) => destruct x
      end ].


Section ComponentEvents.

Context {RT : Runtime}.
Variable self : service.

Lemma emits_session_get (P : event -> Prop) url params headers timeout :
  P (EvGet url params headers timeout) ->
  emits P (session_get url params headers timeout).
Proof. intros H w. cbn. now constructor. Qed.

Lemma silent_mock_weather (city source_id : pyval) :
  silent (generate_mock_weather_data city source_id).
Proof.
  unfold generate_mock_weather_data, random_randint, random_choice,
    random_uniform_round1. silent_go.
Qed.

Lemma silent_live_weather (source : pydict) (data : pyval) :
  silent (live_weather_data source data).
Proof. unfold live_weather_data. silent_go. Qed.

Lemma silent_mock_for_city (source : pydict) acc city :
  silent (mock_for_city source acc city).
Proof.
  unfold mock_for_city. apply silent_bind; [apply silent_lift | intros source_id].
  apply silent_bind; [apply silent_mock_weather | intros; apply silent_ret].
Qed.

Lemma silent_mock_rss (source : pydict) : silent (generate_mock_rss_data source).
Proof. unfold generate_mock_rss_data, mock_article. silent_go. Qed.

Lemma city_step_events (source : pydict) api_key acc city :
  emits (component_event self) (city_step source api_key acc city).
Proof.
  unfold city_step. apply emits_try.
  - apply emits_bind.
    + destruct (use_real_api api_key); [| apply silent_emits, silent_ret].
      apply emits_bind.
      * apply emits_session_get. right. left. now exists city, api_key.
      * intros response. destruct (status response =? 200);
          [| apply silent_emits, silent_ret].
        apply silent_emits.
        apply silent_bind; [apply silent_lift | intros data].
        apply silent_bind; [apply silent_live_weather | intros; apply silent_ret].
    + intros [item |]; apply silent_emits;
        [apply silent_ret | apply silent_mock_for_city].
  - intros e. apply emits_bind; [now apply emits_emit |].
    intros _. apply silent_emits, silent_mock_for_city.
Qed.

Lemma fetch_weather_events (source : pydict) :
  emits (component_event self) (fetch_weather_data source).
Proof.
  unfold fetch_weather_data, fetch_weather_body. apply emits_try.
  - do 3 (apply emits_bind; [apply silent_emits, silent_lift | intros]).
    apply emits_for_each. intros. apply city_step_events.
  - intros e. emits_go.
Qed.

Lemma parse_rss_events (content : string) (source : pydict) :
  emits (component_event self) (parse_rss_content content source).
Proof.
  unfold parse_rss_content, rss_item_step, rss_item_body. cbv zeta. emits_go.
Qed.

Lemma fetch_rss_events (source : pydict) :
  emits (component_event self) (fetch_rss_data source).
Proof.
  unfold fetch_rss_data. cbv zeta. apply emits_try.
  - destruct (negb (truthy (dict_get source "sourceUrl")));
      [apply silent_emits, silent_ret |].
    apply emits_bind; [now apply emits_emit | intros _].
    apply emits_bind.
    + apply emits_session_get. right. right. now repeat split.
    + intros response. destruct (status response =? 200).
      * apply emits_bind; [apply silent_emits, silent_lift | intros content].
        apply emits_bind; [apply parse_rss_events | intros [| a rest]];
          (apply emits_bind; [now apply emits_emit | intros _]);
          apply silent_emits; [apply silent_mock_rss | apply silent_ret].
      * apply emits_bind; [now apply emits_emit | intros _].
        apply silent_emits, silent_mock_rss.
  - intros e. apply emits_bind; [now apply emits_emit | intros _].
    apply silent_emits, silent_mock_rss.
Qed.

Lemma send_events (data : pyval) (source : pydict) :
  emits (component_event self) (send_data_to_backend self data source).
Proof.
  intros w. destruct (envelope_ready source) eqn:Hready.
  - rewrite (send_with_envelope self data source w Hready). cbn.
    constructor; [| constructor].
    repeat split. now exists data, source, (reading w).
  - destruct (send_without_envelope self data source w Hready) as (e & w1 & ->).
    constructor.
Qed.

Lemma deliver_step_events (source : pydict) name count item :
  emits (component_event self) (deliver_step self source name count item).
Proof.
  unfold deliver_step. apply emits_bind; [apply send_events | intros r].
  destruct (fst r); emits_go.
Qed.

Lemma process_source_events (source : pydict) :
  emits (component_event self) (process_source self source).
Proof.
  unfold process_source.
  do 3 (apply emits_bind; [apply silent_emits, silent_lift | intros]).
  apply emits_bind; [now apply emits_emit | intros _].
  apply emits_try; [| intros e; now apply emits_emit].
  apply emits_bind.
  - unfold fetch_by_type. destruct (eq_str _ "weather").
    + apply emits_bind; [apply fetch_weather_events |].
      intros. apply silent_emits, silent_ret.
    + destruct (_ || _).
      * apply emits_bind; [apply fetch_rss_events |].
        intros. apply silent_emits, silent_ret.
      * emits_go.
  - intros [[| item rest] |].
    + now apply emits_emit.
    + apply emits_bind; [| intros; now apply emits_emit].
      apply emits_for_each. intros. apply deliver_step_events.
    + apply silent_emits, silent_ret.
Qed.

Lemma handle_source_events (source : pyval) :
  emits (component_event self) (handle_source self source).
Proof.
  destruct source; try (apply silent_emits, silent_raise).
  cbn [handle_source]. unfold handle_source_dict.
  apply emits_bind; [now apply emits_emit | intros _].
  destruct (eligible d); [| now apply emits_emit].
  apply emits_try; [| intros e; now apply emits_emit].
  unfold check_and_process. cbv zeta.
  destruct (negb _); [apply process_source_events |].
  do 2 (apply emits_bind; [apply silent_emits, silent_lift | intros]).
  apply emits_bind; [apply silent_emits, silent_datetime_now | intros].
  apply emits_bind; [apply silent_emits, silent_lift | intros [|]].
  - apply process_source_events.
  - emits_go.
Qed.

Lemma sweep_sources_events (sources : list pyval) :
  emits (component_event self) (sweep_sources self sources).
Proof.
  unfold sweep_sources. apply emits_for_each. intros. apply handle_source_events.
Qed.

Lemma registry_events :
  emits (component_event self) (get_registered_sources self).
Proof.
  unfold get_registered_sources. apply emits_try.
  - apply emits_bind.
    + apply emits_session_get. left. now repeat split.
    + intros response. destruct (status response =? 200); emits_go.
  - intros e. emits_go.
Qed.

End ComponentEvents.


(** ** The monitoring loop as a whole *)

Section LoopFacts.

Context {RT : Runtime}.
Variable self : service.

Lemma component_is_service (e : event) :
  component_event self e -> service_event self e.
Proof. destruct e; cbn; tauto. Qed.

Lemma count_sleeps_app (t1 t2 : list event) :
  count_sleeps (t1 ++ t2) = (count_sleeps t1 + count_sleeps t2)%nat.
Proof. unfold count_sleeps. now rewrite filter_app, length_app. Qed.

Lemma components_do_not_sleep (t : list event) :
  Forall (component_event self) t -> count_sleeps t = O.
Proof.
  induction 1 as [| e t He _ IH]; [reflexivity |].
  destruct e; cbn in *; solve [exact IH | contradiction].
Qed.

Lemma registry_returns : never_raises (get_registered_sources self).
Proof. unfold get_registered_sources. handler_returns. Qed.

Lemma sweep_events : emits (service_event self) (sweep self).
Proof.
  unfold sweep. apply emits_try.
  - apply emits_bind; [apply silent_emits, silent_datetime_now | intros now].
    apply emits_bind; [now apply emits_emit | intros _].
    apply emits_bind.
    + apply emits_weaken with (component_event self);
        [apply component_is_service | apply registry_events].
    + intros sources. destruct (negb (truthy sources)).
      * apply emits_bind; [now apply emits_emit | intros _].
        apply emits_emit. now left.
      * apply emits_bind; [apply silent_emits, silent_lift | intros n].
        apply emits_bind; [now apply emits_emit | intros _].
        apply emits_bind; [apply silent_emits, silent_lift | intros xs].
        apply emits_bind.
        -- apply emits_weaken with (component_event self);
             [apply component_is_service | apply sweep_sources_events].
        -- intros _. apply emits_bind; [now apply emits_emit | intros _].
           apply emits_emit. now right.
  - intros e. apply emits_bind; [now apply emits_emit | intros _].
    apply emits_emit. now left.
Qed.

(** X1.  The monitoring loop only emits the events of the service: every POST
    carries an envelope to the ingest endpoint of the backend with a timeout
    of 30 seconds, every GET goes to the registry, to the weather provider or
    to a feed, and every sleep lasts 30 or 60 seconds. *)
Theorem loop_emits_service_events_only (fuel : nat) :
  emits (service_event self) (run_source_monitoring self fuel).
Proof.
  unfold run_source_monitoring.
  do 3 (apply emits_bind; [now apply emits_emit | intros _]).
  induction fuel as [| fuel IH]; cbn [monitoring_loop].
  - apply silent_emits, silent_ret.
  - apply emits_bind; [apply sweep_events | intros _; exact IH].
Qed.

(** A sweep always returns, and its trace is a run of the components
    followed by exactly one sleep of 30 or 60 seconds. *)
Lemma sweep_ends_in_one_sleep (w : World) :
  exists t secs w1,
    sweep self w = (Ok tt, w1, (t ++ [EvSleep secs])%list)
    /\ (secs = 30 \/ secs = 60)
    /\ Forall (component_event self) t.
Proof.
  unfold sweep, try_catch.
  unfold bind at 1. cbn [datetime_now]. unfold bind at 1. cbn [print emit].
  unfold bind at 1.
  destruct (registry_returns (next_clock w)) as (sources & w1 & t1 & Hreg).
  pose proof (registry_events self (next_clock w)) as Ht1.
  rewrite Hreg in *. unfold trace in Ht1. cbn [snd] in Ht1.
  destruct (negb (truthy sources)).
  - exists ([EvPrint (LogChecking (reading w))] ++ t1 ++ [EvPrint LogNoSources])%list,
      30, w1.
    split; [| split; [now left |]].
    + cbn. now rewrite <- !app_assoc.
    + apply Forall_app. split; [now repeat constructor |].
      apply Forall_app. split; [exact Ht1 | now repeat constructor].
  - unfold bind at 1. destruct (len sources) as [n | e]; cbn [lift].
    + unfold bind at 1. cbn [print emit]. unfold bind at 1.
      destruct (iterate sources) as [xs | e]; cbn [lift].
      * unfold bind at 1.
        pose proof (sweep_sources_events self xs w1) as Ht2. unfold trace in Ht2.
        destruct (sweep_sources self xs w1) as [[[[] | e] w2] t2]; cbn [snd] in Ht2.
        -- exists ([EvPrint (LogChecking (reading w))] ++ t1
                   ++ [EvPrint (LogFound n)] ++ t2 ++ [EvPrint LogWaiting])%list,
             60, w2.
           split; [| split; [now right |]].
           ++ cbn. rewrite <- !app_assoc. cbn. now rewrite <- !app_assoc.
           ++ apply Forall_app. split; [now repeat constructor |].
              apply Forall_app. split; [exact Ht1 |].
              apply Forall_app. split; [now repeat constructor |].
              apply Forall_app. split; [exact Ht2 | now repeat constructor].
        -- exists ([EvPrint (LogChecking (reading w))] ++ t1
                   ++ [EvPrint (LogFound n)] ++ t2
                   ++ [EvPrint (LogLoopError e)])%list, 30, w2.
           split; [| split; [now left |]].
           ++ cbn. rewrite <- !app_assoc. cbn. now rewrite <- !app_assoc.
           ++ apply Forall_app. split; [now repeat constructor |].
              apply Forall_app. split; [exact Ht1 |].
              apply Forall_app. split; [now repeat constructor |].
              apply Forall_app. split; [exact Ht2 | now repeat constructor].
      * exists ([EvPrint (LogChecking (reading w))] ++ t1
                ++ [EvPrint (LogFound n)] ++ [EvPrint (LogLoopError e)])%list,
          30, w1.
        split; [| split; [now left |]].
        -- cbn. rewrite <- !app_assoc. cbn. now rewrite <- ?app_assoc.
        -- apply Forall_app. split; [now repeat constructor |].
           apply Forall_app. split; [exact Ht1 | now repeat constructor].
    + exists ([EvPrint (LogChecking (reading w))] ++ t1
              ++ [EvPrint (LogLoopError e)])%list, 30, w1.
      split; [| split; [now left |]].
      * cbn. rewrite <- !app_assoc. cbn. now rewrite <- ?app_assoc.
      * apply Forall_app. split; [now repeat constructor |].
        apply Forall_app. split; [exact Ht1 | now repeat constructor].
Qed.

(** X2.  The loop never stops on an error and never spins: [fuel] turns of the
    loop return normally and sleep exactly [fuel] times, once at the end of
    each sweep, whatever the registry, the feeds and the backend answer. *)
Theorem loop_sleeps_once_per_sweep (fuel : nat) (w : World) :
  result (monitoring_loop self fuel w) = Ok tt
  /\ count_sleeps (trace (monitoring_loop self fuel w)) = fuel
  /\ (exists t secs w1,
        sweep self w = (Ok tt, w1, (t ++ [EvSleep secs])%list)
        /\ (secs = 30 \/ secs = 60)
        /\ count_sleeps t = O).
Proof.
  split; [| split].
  - revert w. induction fuel as [| fuel IH]; intros w; [reflexivity |].
    cbn [monitoring_loop]. unfold bind.
    destruct (sweep_ends_in_one_sleep w) as (t & secs & w1 & -> & _).
    specialize (IH w1). unfold result in *.
    now destruct (monitoring_loop self fuel w1) as [[r w2] t2].
  - revert w. induction fuel as [| fuel IH]; intros w; [reflexivity |].
    cbn [monitoring_loop]. unfold bind.
    destruct (sweep_ends_in_one_sleep w) as (t & secs & w1 & -> & _ & Ht).
    specialize (IH w1). unfold trace in *.
    destruct (monitoring_loop self fuel w1) as [[r w2] t2]. cbn [snd] in *.
    rewrite !count_sleeps_app, (components_do_not_sleep _ Ht), IH.
    reflexivity.
  - destruct (sweep_ends_in_one_sleep w) as (t & secs & w1 & Hrun & Hsecs & Ht).
    exists t, secs, w1. split; [exact Hrun | split; [exact Hsecs |]].
    now apply components_do_not_sleep.
Qed.

End LoopFacts.


(** ** Deliveries of one source *)

Section DeliveryLoopFacts.

Context {RT : Runtime}.
Variable self : service.

Lemma deliver_step_ready (source : pydict) name count item (w : World) :
  envelope_ready source = true ->
  deliver_step self source name count item w
  = (Ok ((if fst (delivery_verdict (reply w)) then 1 else 0) + count)%nat,
     after_delivery w,
     [ingest_request self item source w;
      EvPrint (delivery_line name (delivery_verdict (reply w)))]).
Proof.
  intros Hready. unfold deliver_step, bind, delivery_line.
  rewrite (send_with_envelope self item source w Hready).
  now destruct (fst (delivery_verdict (reply w))).
Qed.

Lemma send_without_envelope_at (data : pyval) (source : pydict) (w : World) :
  envelope_ready source = false ->
  exists e w1,
    send_data_to_backend self data source w = (Ok (connection_error e), w1, [])
    /\ (w1 = w \/ w1 = next_clock w).
Proof.
  unfold envelope_ready, send_data_to_backend, try_catch, dict_item, connection_error.
  intros H.
  destruct (lookup source "sourceType") as [ty |];
    [| eexists _, _; split; [reflexivity | now left]].
  destruct (lookup source "sourceId") as [sid |];
    [| eexists _, _; split; [reflexivity | now left]].
  destruct (lookup source "sourceName") as [name |];
    [| eexists _, _; split; [reflexivity | now right]].
  destruct (lookup source "sourceUrl") as [url |];
    [| eexists _, _; split; [reflexivity | now right]].
  destruct (lookup source "maxEntries") as [mx |];
    [discriminate | eexists _, _; split; [reflexivity | now right]].
Qed.

Lemma accepted_bound (answers : nat -> outcome response) (pos n : nat) :
  (accepted_from answers pos n <= n)%nat.
Proof.
  revert pos. induction n as [| n IH]; intros pos; cbn [accepted_from]; [lia |].
  specialize (IH (S pos)). destruct (fst _); lia.
Qed.

Lemma length_ingest_requests (data_items : list pyval) (source : pydict) :
  forall w,
    List.length (ingest_requests self data_items source w) = List.length data_items.
Proof.
  induction data_items as [| item rest IH]; intros w; cbn; [reflexivity |].
  now rewrite IH.
Qed.

Lemma delivery_loop (source : pydict) name (data_items : list pyval) :
  envelope_ready source = true ->
  forall count w,
  exists t,
    for_each data_items (deliver_step self source name) count w
    = (Ok (accepted_from (net w) (net_pos w) (List.length data_items) + count)%nat,
       Nat.iter (List.length data_items) after_delivery w, t)
    /\ actions t = ingest_requests self data_items source w
    /\ filter is_post t = ingest_requests self data_items source w.
Proof.
  intros Hready. induction data_items as [| item rest IH]; intros count w.
  - exists []. now repeat split.
  - cbn [for_each]. unfold bind.
    rewrite (deliver_step_ready source name count item w Hready).
    destruct (IH ((if fst (delivery_verdict (reply w)) then 1 else 0) + count)%nat
                (after_delivery w)) as (t & Hloop & Hact & Hposts).
    rewrite Hloop.
    exists ([ingest_request self item source w;
             EvPrint (delivery_line name (delivery_verdict (reply w)))] ++ t)%list.
    split; [| split].
    + cbn [List.length accepted_from]. rewrite Nat.iter_succ_r.
      replace (accepted_from (net (after_delivery w)) (net_pos (after_delivery w))
                 (List.length rest)
               + ((if fst (delivery_verdict (reply w)) then 1 else 0) + count))%nat
        with ((if fst (delivery_verdict (net w (net_pos w))) then 1 else 0)
              + accepted_from (net w) (S (net_pos w)) (List.length rest)
              + count)%nat; [reflexivity |].
      unfold reply. cbn [after_delivery next_net next_clock net net_pos]. lia.
    + rewrite actions_app, Hact. reflexivity.
    + rewrite filter_app, Hposts. reflexivity.
Qed.

(** X3.  For a source configuration that has the five entries of the envelope,
    the delivery loop makes exactly one POST per item, in the order of the
    items and each with its item as data, whatever the backend answers; it
    returns the number of deliveries the backend accepted (status 200 with a
    JSON object), which is at most the number of items; nothing else is
    requested and the loop does not raise. *)
Theorem one_post_per_item_and_successes_counted (source : pydict) (name : pyval)
    (data_items : list pyval) (w : World) :
  envelope_ready source = true ->
  exists t,
    for_each data_items (deliver_step self source name) O w
    = (Ok (accepted_from (net w) (net_pos w) (List.length data_items)),
       Nat.iter (List.length data_items) after_delivery w, t)
    /\ actions t = ingest_requests self data_items source w
    /\ List.length (filter is_post t) = List.length data_items
    /\ (accepted_from (net w) (net_pos w) (List.length data_items)
        <= List.length data_items)%nat.
Proof.
  intros Hready.
  destruct (delivery_loop source name data_items Hready O w)
    as (t & Hloop & Hact & Hposts).
  exists t. rewrite Nat.add_0_r in Hloop.
  split; [exact Hloop | split; [exact Hact | split; [| apply accepted_bound]]].
  rewrite Hposts. apply length_ingest_requests.
Qed.

(** X4.  When the source configuration lacks one of the five entries of the
    envelope (sourceType, sourceId, sourceName, sourceUrl, maxEntries), no
    item is ever sent: every delivery fails before any request is made, the
    loop still goes through all the items and returns a success count of 0,
    and no answer of the network is consumed. *)
Theorem missing_envelope_entry_sends_nothing (source : pydict) (name : pyval)
    (data_items : list pyval) :
  envelope_ready source = false ->
  forall count w,
  exists w1 t,
    for_each data_items (deliver_step self source name) count w
    = (Ok count, w1, t)
    /\ actions t = []
    /\ List.length t = List.length data_items
    /\ net_pos w1 = net_pos w.
Proof.
  intros Hready. induction data_items as [| item rest IH]; intros count w.
  - exists w, []. now repeat split.
  - destruct (send_without_envelope_at item source w Hready)
      as (e & w1 & Hsend & Hw1).
    assert (Hstep : deliver_step self source name count item w
                    = (Ok count, w1,
                       [EvPrint (LogSendFailed name (snd (connection_error e)))])).
    { unfold deliver_step, bind. now rewrite Hsend. }
    destruct (IH count w1) as (w2 & t & Hloop & Hact & Hlen & Hpos).
    exists w2, (EvPrint (LogSendFailed name (snd (connection_error e))) :: t).
    repeat split.
    + cbn [for_each]. unfold bind. now rewrite Hstep, Hloop.
    + exact Hact.
    + cbn. now rewrite Hlen.
    + rewrite Hpos. now destruct Hw1 as [-> | ->].
Qed.

End DeliveryLoopFacts.

(** ** One source in the sweep *)

Section SourceFacts.

Context {RT : Runtime}.
Variable self : service.

Lemma process_source_with_keys (source : pydict) source_id source_type source_name
    (w : World) :
  lookup source "sourceId" = Some source_id ->
  lookup source "sourceType" = Some source_type ->
  lookup source "sourceName" = Some source_name ->
  process_source self source w
  = after_trace [EvPrint (LogProcessing source_name source_type)]
      (try_catch
         (fetched <- fetch_by_type source source_type ;;
          match fetched with
          | None => ret tt
          | Some [] => print (LogNoData source_name)
          | Some data_items =>
              success_count <-
                for_each data_items (deliver_step self source source_name) 0%nat ;;
              print (LogSummary source_name success_count (List.length data_items))
          end)
         (fun e => print (LogProcessError source_name e)) w).
Proof.
  intros Hid Hty Hname. unfold process_source, dict_item.
  rewrite Hid, Hty, Hname.
  unfold bind at 1. cbn [lift]. unfold bind at 1. cbn [lift].
  unfold bind at 1. cbn [lift]. unfold bind at 1. cbn [print emit].
  unfold after_trace, result, world_after, trace.
  now destruct (try_catch _ _ w) as [[r w1] t1].
Qed.

(** X5.  [process_source] needs the sourceId, the sourceType and the
    sourceName of the source: with the three it always returns, whatever the
    fetch and the deliveries do; without one of them it raises a KeyError at
    once, before anything is printed or requested. *)
Theorem process_source_returns_iff_three_keys (source : pydict) :
  (has_process_keys source = true -> never_raises (process_source self source))
  /\ (has_process_keys source = false ->
      forall w, exists key,
        process_source self source w
        = (Raise (Exn KeyError ("'" ++ key ++ "'")), w, [])
        /\ lookup source key = None
        /\ In key ["sourceId"; "sourceType"; "sourceName"]).
Proof.
  unfold has_process_keys. split.
  - destruct (lookup source "sourceId") as [sid |] eqn:Hid; [| discriminate].
    destruct (lookup source "sourceType") as [ty |] eqn:Hty; [| discriminate].
    destruct (lookup source "sourceName") as [name |] eqn:Hname; [| discriminate].
    intros _ w. rewrite (process_source_with_keys _ _ _ _ w Hid Hty Hname).
    assert (Hcatch : never_raises
              (try_catch
                 (fetched <- fetch_by_type source ty ;;
                  match fetched with
                  | None => ret tt
                  | Some [] => print (LogNoData name)
                  | Some data_items =>
                      success_count <-
                        for_each data_items (deliver_step self source name) 0%nat ;;
                      print (LogSummary name success_count (List.length data_items))
                  end)
                 (fun e => print (LogProcessError name e)))).
    { handler_returns. }
    destruct (Hcatch w) as (a & w1 & t & ->). now eexists _, _, _.
  - intros H w. unfold process_source, dict_item.
    destruct (lookup source "sourceId") as [sid |] eqn:Hid.
    + destruct (lookup source "sourceType") as [ty |] eqn:Hty.
      * destruct (lookup source "sourceName") as [name |] eqn:Hname;
          [discriminate |].
        exists "sourceName". split; [reflexivity | split; [exact Hname |]].
        cbn. tauto.
      * exists "sourceType". split; [reflexivity | split; [exact Hty |]].
        cbn. tauto.
    + exists "sourceId". split; [reflexivity | split; [exact Hid |]].
      cbn. tauto.
Qed.

(** X6.  A source whose type is none of weather, rss and news is only logged:
    [process_source] prints that the type is unsupported and returns without
    any request, consuming nothing of the world. *)
Theorem unsupported_type_is_only_logged (source : pydict) source_id source_type
    source_name (w : World) :
  lookup source "sourceId" = Some source_id ->
  lookup source "sourceType" = Some source_type ->
  lookup source "sourceName" = Some source_name ->
  eq_str source_type "weather" = false ->
  is_feed_type source_type = false ->
  process_source self source w
  = (Ok tt, w,
     [EvPrint (LogProcessing source_name source_type);
      EvPrint (LogUnsupported source_type)]).
Proof.
  intros Hid Hty Hname Hw Hfeed.
  rewrite (process_source_with_keys _ _ _ _ w Hid Hty Hname).
  unfold try_catch, fetch_by_type. rewrite Hw.
  fold (is_feed_type source_type). rewrite Hfeed. reflexivity.
Qed.

Lemma handle_source_dict_returns (source : pydict) :
  never_raises (handle_source_dict self source).
Proof.
  unfold handle_source_dict. apply never_raises_bind; [apply never_raises_print |].
  intros _. destruct (eligible source); [| apply never_raises_print].
  unfold on_source_error. handler_returns.
Qed.

Lemma sweep_dicts_returns (sources : list pyval) :
  forallb is_dict sources = true -> never_raises (sweep_sources self sources).
Proof.
  unfold sweep_sources. intros Hall.
  induction sources as [| source rest IH]; cbn [for_each].
  - apply never_raises_ret.
  - cbn in Hall. apply andb_prop in Hall as [Hd Hrest].
    apply never_raises_bind.
    + destruct source; try discriminate. apply handle_source_dict_returns.
    + intros []. now apply IH.
Qed.

(** X7.  The per-source [try] isolates the sources from each other: handling a
    source that is an object always returns, whatever is wrong with its
    entries and whatever its fetch and deliveries do, so a sweep over objects
    handles every one of them, in order. A registry entry that is not an
    object is not covered: the sweep stops there with an AttributeError and
    the entries after it are not handled in that sweep. *)
Theorem sources_are_isolated_unless_not_objects (before rest : list pyval)
    (w : World) :
  forallb is_dict before = true ->
  (exists w1 t,
      sweep_sources self before w = (Ok tt, w1, t)
      /\ sweep_sources self (before ++ rest) w
         = after_trace t (sweep_sources self rest w1)
      /\ forall v, is_dict v = false ->
           exists e,
             sweep_sources self (before ++ v :: rest) w = (Raise e, w1, t)
             /\ exn_cls e = AttributeError).
Proof.
  intros Hall.
  destruct (sweep_dicts_returns before Hall w) as ([] & w1 & t & Hrun).
  exists w1, t. split; [exact Hrun |].
  assert (Happ : forall ys,
             sweep_sources self (before ++ ys) w
             = after_trace t (sweep_sources self ys w1)).
  { intros ys. unfold sweep_sources in *. rewrite for_each_app. unfold bind.
    rewrite Hrun. unfold after_trace, result, world_after, trace.
    now destruct (for_each ys _ tt w1) as [[r w2] t2]. }
  split; [apply Happ |].
  intros v Hv. rewrite Happ.
  exists (no_attribute v "get").
  split; [| reflexivity].
  assert (Hstop : sweep_sources self (v :: rest) w1
                  = (Raise (no_attribute v "get"), w1, [])).
  { unfold sweep_sources. cbn [for_each]. unfold bind.
    destruct v; try discriminate; reflexivity. }
  rewrite Hstop. unfold after_trace, result, world_after, trace. cbn [fst snd].
  now rewrite app_nil_r.
Qed.

End SourceFacts.


(** ** The weather strategy, request by request *)

Section WeatherRequests.

Context {RT : Runtime}.
Variable self : service.

Lemma after_mock_keeps_network (n : nat) (w : World) :
  net (Nat.iter n after_mock w) = net w
  /\ net_pos (Nat.iter n after_mock w) = net_pos w.
Proof.
  induction n as [| n IH]; [now split |].
  cbn [Nat.iter]. destruct IH as [Hnet Hpos]. now split.
Qed.

Lemma cities_loop_without_key (source : pydict) source_id api_key
    (cs : list pyval) :
  lookup source "sourceId" = Some source_id ->
  use_real_api api_key = false ->
  forallb hashable cs = true ->
  forall acc w,
  exists items,
    for_each cs (city_step source api_key) acc w
    = (Ok (acc ++ items)%list, Nat.iter (List.length cs) after_mock w, [])
    /\ map item_city items = cs.
Proof.
  intros Hid Hoff. induction cs as [| city rest IH]; intros Hh acc w.
  - exists []. cbn. now rewrite app_nil_r.
  - cbn in Hh. apply andb_prop in Hh as [Hcity Hrest].
    destruct (city_step_ok source source_id api_key acc city w Hid Hcity)
      as (item & w1 & t1 & Hstep & Hmock & _).
    destruct (Hmock Hoff) as (_ & Hc & -> & ->).
    destruct (IH Hrest (acc ++ [item])%list (after_mock w)) as (items & Hloop & Hmap).
    exists (item :: items). split.
    + cbn [for_each]. unfold bind. rewrite Hstep, Hloop.
      cbn [List.length]. rewrite Nat.iter_succ_r. now rewrite <- app_assoc.
    + cbn. now rewrite Hc, Hmap.
Qed.

Lemma offline_ret {A} (a : A) : offline (ret a).
Proof. now intros w. Qed.

Lemma offline_lift {A} (o : outcome A) : offline (lift o).
Proof. now intros w. Qed.

Lemma offline_now : offline datetime_now.
Proof. now intros w. Qed.

Lemma offline_bind {A B} (m : M A) (k : A -> M B) :
  offline m -> (forall a, offline (k a)) -> offline (bind m k).
Proof.
  intros Hm Hk w. unfold bind.
  destruct (Hm w) as (Ht & Hnet & Hpos). unfold trace, world_after in *.
  destruct (m w) as [[[a | e] w1] t1]; cbn in *; [| now repeat split].
  destruct (Hk a w1) as (Ht' & Hnet' & Hpos'). unfold trace, world_after in *.
  destruct (k a w1) as [[r w2] t2]. cbn in *. subst.
  repeat split; congruence.
Qed.

Lemma offline_live_weather (source : pydict) (data : pyval) :
  offline (live_weather_data source data).
Proof.
  unfold live_weather_data.
  repeat first [ apply offline_ret | apply offline_lift | apply offline_now
               | apply offline_bind; [| intros ] ].
Qed.

(** With a real API key, one turn of the city loop asks the provider once. *)
Lemma city_step_with_key (source : pydict) source_id api_key acc city (w : World) :
  lookup source "sourceId" = Some source_id ->
  hashable city = true ->
  use_real_api api_key = true ->
  exists item w1 t,
    city_step source api_key acc city w = (Ok (acc ++ [item])%list, w1, t)
    /\ actions t = [weather_request city api_key]
    /\ net w1 = net w /\ net_pos w1 = S (net_pos w).
Proof.
  intros Hid Hh Hkey. unfold city_step. rewrite Hkey.
  unfold try_catch, bind at 1, bind at 1, session_get.
  assert (Hmock : forall w0, exists item,
             mock_for_city source acc city w0
             = (Ok (acc ++ [item])%list, after_mock w0, [])).
  { intros w0. destruct (mock_for_city_ok source source_id acc city w0 Hid Hh)
      as (item & Hrun & _). now exists item. }
  destruct (reply w) as [r | e].
  - destruct (status r =? 200).
    + unfold bind at 1. destruct (json r) as [data | e]; cbn [lift].
      * unfold bind at 1.
        destruct (offline_live_weather source data (next_net w))
          as (Ht & Hnet & Hpos).
        unfold trace, world_after in *.
        destruct (live_weather_data source data (next_net w))
          as [[[item | e] w1] t1]; cbn [fst snd] in *; subst t1.
        -- eexists _, _, _. split; [reflexivity |]. now repeat split.
        -- destruct (Hmock w1) as (item & Hrun).
           unfold bind, print, emit. rewrite Hrun.
           eexists _, _, _. split; [reflexivity |]. now repeat split.
      * destruct (Hmock (next_net w)) as (item & Hrun).
        unfold bind, print, emit. rewrite Hrun.
        eexists _, _, _. split; [reflexivity |]. now repeat split.
    + destruct (Hmock (next_net w)) as (item & Hrun).
      unfold ret. rewrite Hrun.
      eexists _, _, _. split; [reflexivity |]. now repeat split.
  - destruct (Hmock (next_net w)) as (item & Hrun).
    unfold bind, print, emit. rewrite Hrun.
    eexists _, _, _. split; [reflexivity |]. now repeat split.
Qed.

Lemma cities_loop_with_key (source : pydict) source_id api_key (cs : list pyval) :
  lookup source "sourceId" = Some source_id ->
  use_real_api api_key = true ->
  forallb hashable cs = true ->
  forall acc w,
  exists items w1 t,
    for_each cs (city_step source api_key) acc w = (Ok (acc ++ items)%list, w1, t)
    /\ List.length items = List.length cs
    /\ actions t = map (fun city => weather_request city api_key) cs
    /\ net w1 = net w
    /\ net_pos w1 = (List.length cs + net_pos w)%nat.
Proof.
  intros Hid Hkey. induction cs as [| city rest IH]; intros Hh acc w.
  - exists [], w, []. cbn. rewrite app_nil_r. now repeat split.
  - cbn in Hh. apply andb_prop in Hh as [Hcity Hrest].
    destruct (city_step_with_key source source_id api_key acc city w Hid Hcity Hkey)
      as (item & w1 & t1 & Hstep & Hact & Hnet & Hpos).
    destruct (IH Hrest (acc ++ [item])%list w1)
      as (items & w2 & t2 & Hloop & Hlen & Hact2 & Hnet2 & Hpos2).
    exists (item :: items), w2, (t1 ++ t2)%list. repeat split.
    + cbn [for_each]. unfold bind. rewrite Hstep, Hloop. now rewrite <- app_assoc.
    + cbn. now rewrite Hlen.
    + rewrite actions_app, Hact, Hact2. reflexivity.
    + congruence.
    + rewrite Hpos2, Hpos. cbn [List.length]. lia.
Qed.

(** X8.  With a real API key, a source that has a sourceId and cities that are
    strings gets exactly one provider request per city, in the order of the
    cities and each with q, appid and units=metric, whether the earlier
    requests failed or not; the result has one record per city. *)
Theorem one_provider_request_per_city (source config : pydict) source_id
    (cs : list pyval) (w : World) :
  lookup source "sourceId" = Some source_id ->
  dict_get_or source "config" (VDict []) = VDict config ->
  iterate (dict_get_or config "cities" (VList [VStr "New York"])) = Ok cs ->
  forallb hashable cs = true ->
  use_real_api (dict_get_or config "apiKey" VNone) = true ->
  exists items w1 t,
    fetch_weather_data source w = (Ok items, w1, t)
    /\ List.length items = List.length cs
    /\ actions t
       = map (fun city => weather_request city (dict_get_or config "apiKey" VNone)) cs
    /\ net_pos w1 = (List.length cs + net_pos w)%nat.
Proof.
  intros Hid Hconfig Hiter Hh Hkey.
  destruct (cities_loop_with_key source source_id _ cs Hid Hkey Hh [] w)
    as (items & w1 & t & Hloop & Hlen & Hact & _ & Hpos).
  exists items, w1, t. split; [| now repeat split].
  unfold fetch_weather_data, fetch_weather_body, try_catch.
  rewrite Hconfig. cbn [method_get].
  unfold bind at 1. cbn [lift]. unfold bind at 1. cbn [lift].
  unfold bind at 1. rewrite Hiter. cbn [lift].
  now rewrite Hloop.
Qed.

(** X9.  The strategy needs the sourceId only to build a record: for a source
    without sourceId whose config gives at least one city, every record fails
    to be built, also in the handler of the per-city [try], and the outer
    handler returns the empty list. *)
Theorem no_source_id_no_weather (source config : pydict) (city : pyval)
    (rest : list pyval) (w : World) :
  lookup source "sourceId" = None ->
  dict_get_or source "config" (VDict []) = VDict config ->
  iterate (dict_get_or config "cities" (VList [VStr "New York"])) = Ok (city :: rest) ->
  use_real_api (dict_get_or config "apiKey" VNone) = false ->
  fetch_weather_data source w
  = (Ok [], w,
     [EvPrint (LogCityError city (Exn KeyError "'sourceId'"));
      EvPrint (LogWeatherError (Exn KeyError "'sourceId'"))]).
Proof.
  intros Hid Hconfig Hiter Hkey.
  unfold fetch_weather_data, fetch_weather_body, try_catch.
  rewrite Hconfig. cbn [method_get].
  unfold bind at 1. cbn [lift]. unfold bind at 1. cbn [lift].
  unfold bind at 1. rewrite Hiter. cbn [lift for_each].
  unfold bind at 1. unfold city_step. rewrite Hkey.
  unfold try_catch, mock_for_city, dict_item. rewrite Hid.
  reflexivity.
Qed.

End WeatherRequests.

(** ** From the cities of a weather source to the deliveries *)

Section EndToEnd.

Context {RT : Runtime}.
Variable self : service.

(** X10.  For a weather source without a usable API key, with all the entries
    [process_source] and the envelope need and with n cities that are strings
    (n > 0): [process_source] builds n synthetic records, one per city in
    order, makes exactly n POSTs, one per record and no other request, and
    ends with the summary line that counts the accepted deliveries out of n. *)
Theorem weather_source_without_key_delivers_every_city (source config : pydict)
    source_id source_name (cs : list pyval) (w : World) :
  lookup source "sourceId" = Some source_id ->
  lookup source "sourceType" = Some (VStr "weather") ->
  lookup source "sourceName" = Some source_name ->
  envelope_ready source = true ->
  dict_get_or source "config" (VDict []) = VDict config ->
  iterate (dict_get_or config "cities" (VList [VStr "New York"])) = Ok cs ->
  forallb hashable cs = true ->
  cs <> [] ->
  use_real_api (dict_get_or config "apiKey" VNone) = false ->
  let n := List.length cs in
  let fetched := Nat.iter n after_mock w in
  exists items t,
    map item_city items = cs
    /\ process_source self source w
       = (Ok tt, Nat.iter n after_delivery fetched,
          ([EvPrint (LogProcessing source_name (VStr "weather"))] ++ t
           ++ [EvPrint (LogSummary source_name
                          (accepted_from (net w) (net_pos w) n) n)])%list)
    /\ actions t = ingest_requests self items source fetched.
Proof.
  intros Hid Hty Hname Hready Hconfig Hiter Hh Hne Hkey n fetched.
  destruct (cities_loop_without_key source source_id _ cs Hid Hkey Hh [] w)
    as (items & Hloop & Hmap).
  assert (Hlen : List.length items = n).
  { unfold n. rewrite <- Hmap. now rewrite length_map. }
  assert (Hfetch : fetch_weather_data source w = (Ok items, fetched, [])).
  { unfold fetch_weather_data, fetch_weather_body, try_catch.
    rewrite Hconfig. cbn [method_get].
    unfold bind at 1. cbn [lift]. unfold bind at 1. cbn [lift].
    unfold bind at 1. rewrite Hiter. cbn [lift].
    now rewrite Hloop. }
  destruct (delivery_loop self source source_name items Hready O fetched)
    as (t & Hdeliver & Hact & _).
  rewrite Nat.add_0_r, Hlen in Hdeliver.
  destruct (after_mock_keeps_network n w) as [Hnet Hpos].
  fold fetched in Hnet, Hpos. rewrite Hnet, Hpos in Hdeliver.
  exists items, t. split; [exact Hmap | split; [| exact Hact]].
  rewrite (process_source_with_keys self source _ _ _ w Hid Hty Hname).
  unfold try_catch, fetch_by_type. cbn [eq_str String.eqb Ascii.eqb Bool.eqb].
  unfold bind at 1. unfold bind at 1. rewrite Hfetch. cbn [ret].
  destruct items as [| item items'].
  - exfalso. apply Hne. now destruct cs.
  - unfold bind. rewrite Hdeliver. unfold after_trace, result, world_after, trace.
    cbn [print emit fst snd]. rewrite Hlen. reflexivity.
Qed.

End EndToEnd.


(** ** The feed parser, field by field *)

Section FieldFacts.

Context {RT : Runtime}.

Lemma get_xml_text_cons (item : element) (tag : string) (rest : list string) :
  get_xml_text item (tag :: rest)
  = match candidate_text item tag with
    | Some t => Some (strip t)
    | None => get_xml_text item rest
    end.
Proof.
  cbn [get_xml_text]. unfold candidate_text.
  destruct (find_child item tag) as [found |]; [| reflexivity].
  destruct (text_of found) as [t |]; [| reflexivity].
  now destruct (t =? "")%string.
Qed.

Lemma get_xml_text_skips (item : element) (skipped rest : list string) :
  Forall (fun tag => candidate_text item tag = None) skipped ->
  get_xml_text item (skipped ++ rest) = get_xml_text item rest.
Proof.
  induction 1 as [| tag skipped Htag _ IH]; [reflexivity |].
  cbn [app]. now rewrite get_xml_text_cons, Htag.
Qed.

(** X11.  [get_xml_text] takes the candidates in the order of the list and
    stops at the first one whose first child of that tag has a text that is
    not empty: it returns that text stripped, even when the stripped text is
    empty, without looking at the later candidates; it returns None exactly
    when no candidate has such a child; and what it returns is always a
    stripped text of one of the candidates. *)
Theorem first_candidate_with_text_wins (item : element) (tags : list string) :
  (get_xml_text item tags = None
   <-> Forall (fun tag => candidate_text item tag = None) tags)
  /\ (forall skipped tag later t,
        tags = (skipped ++ tag :: later)%list ->
        Forall (fun s => candidate_text item s = None) skipped ->
        candidate_text item tag = Some t ->
        get_xml_text item tags = Some (strip t))
  /\ (forall d,
        get_xml_text item tags = Some d ->
        strip d = d
        /\ exists tag t,
             In tag tags /\ candidate_text item tag = Some t /\ d = strip t).
Proof.
  split; [| split].
  - induction tags as [| tag rest IH]; [now split |].
    rewrite get_xml_text_cons.
    destruct (candidate_text item tag) as [t |] eqn:Htag.
    + split; [discriminate |]. intros H. inversion H; congruence.
    + rewrite IH. split; [now constructor |]. now inversion 1.
  - intros skipped tag later t -> Hskipped Htag.
    now rewrite (get_xml_text_skips _ _ _ Hskipped), get_xml_text_cons, Htag.
  - intros d Hd. split; [now apply get_xml_text_stripped with item tags |].
    induction tags as [| tag rest IH]; [discriminate |].
    rewrite get_xml_text_cons in Hd.
    destruct (candidate_text item tag) as [t |] eqn:Htag.
    + injection Hd as <-. exists tag, t. repeat split; [now left | exact Htag].
    + destruct (IH Hd) as (tag' & t & Hin & Ht & ->).
      exists tag', t. repeat split; [now right | exact Ht].
Qed.

Lemma length_lstrip (s : string) : (String.length (lstrip s) <= String.length s)%nat.
Proof.
  induction s as [| c r IH]; cbn [lstrip]; [lia |].
  destruct (is_space c); cbn [String.length]; lia.
Qed.

Lemma length_rstrip (s : string) : (String.length (rstrip s) <= String.length s)%nat.
Proof.
  induction s as [| c r IH]; cbn [rstrip]; [lia |].
  destruct (is_space c && (rstrip r =? "")%string); cbn [String.length]; lia.
Qed.

Lemma length_strip (s : string) : (String.length (strip s) <= String.length s)%nat.
Proof.
  unfold strip. pose proof (length_rstrip (lstrip s)). pose proof (length_lstrip s).
  lia.
Qed.

Lemma length_prefix_slice_le (n : nat) (s : string) :
  (String.length (prefix_slice n s) <= n)%nat.
Proof.
  unfold prefix_slice. revert s.
  induction n as [| n IH]; intros [| c r]; cbn; try lia.
  specialize (IH r). lia.
Qed.

Lemma prefix_slice_all (n : nat) (s : string) :
  (String.length s <= n)%nat -> prefix_slice n s = s.
Proof.
  unfold prefix_slice. revert s.
  induction n as [| n IH]; intros [| c r] H; cbn in *; try reflexivity; try lia.
  f_equal. apply IH. lia.
Qed.

(** X12.  The description of an article never has more than 503 characters; a
    description of at most 500 characters is kept whole (stripped, without the
    ellipsis), a longer one is cut to the first 500 characters of its stripped
    text and gets "..." appended. *)
Theorem description_is_bounded (description : option string) :
  (String.length (description_field description) <= 503)%nat
  /\ ((String.length (or_empty description) <= 500)%nat ->
      description_field description = strip (or_empty description))
  /\ ((500 < String.length (or_empty description))%nat ->
      description_field description
      = prefix_slice 500 (strip (or_empty description)) ++ "...").
Proof.
  unfold description_field. split; [| split].
  - rewrite length_app_string.
    pose proof (length_prefix_slice_le 500 (strip (or_empty description))).
    destruct (500 <? _)%nat; cbn [String.length]; lia.
  - intros Hshort. apply Nat.ltb_ge in Hshort as Hlt. rewrite Hlt.
    rewrite prefix_slice_all.
    + generalize (strip (or_empty description)).
      intros s. induction s as [| c r IH]; cbn; [reflexivity | now rewrite IH].
    + pose proof (length_strip (or_empty description)). lia.
  - intros Hlong. apply Nat.ltb_lt in Hlong. now rewrite Hlong.
Qed.

Lemma atom_tag_is_not_title (local : string) :
  (atom_ns ++ local =? "title")%string = false.
Proof. reflexivity. Qed.

Lemma atom_children_untitled (item : element) :
  atom_children item -> titled item = false.
Proof.
  unfold atom_children, titled. cbn [get_xml_text]. unfold find_child.
  intros Hall.
  assert (Hfind : List.find (fun c => (tag_of c =? "title")%string)
                    (children_of item) = None).
  { induction Hall as [| c cs (local & Hc) _ IH]; [reflexivity |].
    cbn [List.find]. now rewrite Hc, atom_tag_is_not_title. }
  now rewrite Hfind.
Qed.

Lemma untitled_loop (source : pydict) (items : list element) acc (w : World) :
  Forall (fun item => titled item = false) items ->
  for_each items (rss_item_step source) acc w = (Ok acc, w, []).
Proof.
  induction 1 as [| item rest Hitem _ IH]; [reflexivity |].
  cbn [for_each]. unfold bind.
  now rewrite (item_step_untitled source acc item w Hitem), IH.
Qed.

(** X13.  The parser looks for the title under the plain tag "title" only. The
    children of an Atom entry carry the Atom namespace in their tag, so a feed
    whose matched nodes are such entries yields no article at all, whatever
    titles and summaries the entries have. *)
Theorem namespaced_entries_yield_no_article (content : string) (source : pydict)
    (root : element) (w : World) :
  ET_fromstring content = Ok root ->
  Forall atom_children (firstn 10 (matched_items root)) ->
  parse_rss_content content source w = (Ok [], w, []).
Proof.
  intros Hroot Hatom. rewrite (parse_of_root content source root w Hroot).
  apply untitled_loop. eapply Forall_impl; [| exact Hatom].
  intros item. apply atom_children_untitled.
Qed.

End FieldFacts.


(** ** The registry client and the wait after a sweep *)

Section RegistryFacts.

Context {RT : Runtime}.
Variable self : service.

Lemma registry_run (w : World) :
  exists t,
    get_registered_sources self w
    = (Ok (registry_answer (reply w)), next_net w, registry_request self :: t)
    /\ actions t = [].
Proof.
  unfold get_registered_sources, registry_answer, registry_request, try_catch,
    bind at 1, session_get.
  destruct (reply w) as [r | e]; [| now eexists].
  destruct (status r =? 200); [| now eexists].
  unfold bind. destruct (json r) as [data | e]; cbn [lift]; [| now eexists].
  destruct data; cbn [method_get]; now eexists.
Qed.

(** X14.  The registry client makes exactly one request, the GET to the
    registry without a timeout, and never raises. It returns the "sources"
    entry of the body when the answer has status 200 and decodes to a JSON
    object (the empty list when the object has no such entry), and the empty
    list in every other case: transport error, other status, undecodable body,
    or a body that is not an object. Beside the request it prints at most one
    line, and none when the answer is a 200 with a JSON object. *)
Theorem registry_client_returns_sources_or_empty (w : World) :
  exists t,
    get_registered_sources self w
    = (Ok (registry_answer (reply w)), next_net w, registry_request self :: t)
    /\ actions t = []
    /\ (List.length t <= 1)%nat
    /\ (forall r body,
          reply w = Ok r -> status r = 200 -> json r = Ok (VDict body) ->
          t = []).
Proof.
  unfold get_registered_sources, registry_answer, registry_request, try_catch,
    bind at 1, session_get.
  destruct (reply w) as [r | e].
  - destruct (Z.eqb_spec (status r) 200) as [Hst | Hst].
    + unfold bind. destruct (json r) as [data | e] eqn:Hjson; cbn [lift].
      * destruct data; cbn [method_get]; eexists;
          (split; [reflexivity | split; [reflexivity | split; [cbn; lia |]]]);
          intros r' body Hr _ Hbody; injection Hr as <-;
          rewrite Hjson in Hbody; try discriminate; reflexivity.
      * eexists. split; [reflexivity | split; [reflexivity | split; [cbn; lia |]]].
        intros r' body Hr _ Hbody. injection Hr as <-.
        rewrite Hjson in Hbody. discriminate.
    + eexists. split; [reflexivity | split; [reflexivity | split; [cbn; lia |]]].
      intros r' body Hr Hst' _. injection Hr as <-. contradiction.
  - eexists. split; [reflexivity | split; [reflexivity | split; [cbn; lia |]]].
    intros r' body Hr. discriminate.
Qed.

Lemma sweep_after_registry (w : World) :
  exists t,
    let w1 := next_net (next_clock w) in
    let sources := registry_answer (reply (next_clock w)) in
    actions t = []
    /\ sweep self w
       = after_trace ([EvPrint (LogChecking (reading w)); registry_request self] ++ t)
           (try_catch
              (if negb (truthy sources) then
                 print LogNoSources ;; asyncio_sleep 30
               else
                 n <- lift (len sources) ;;
                 print (LogFound n) ;;
                 sources_seq <- lift (iterate sources) ;;
                 sweep_sources self sources_seq ;;
                 print LogWaiting ;;
                 asyncio_sleep 60)
              (fun e => print (LogLoopError e) ;; asyncio_sleep 30) w1).
Proof.
  destruct (registry_run (next_clock w)) as (t & Hreg & Hact).
  exists t. cbv zeta. split; [exact Hact |].
  unfold sweep, try_catch at 1, bind at 1, datetime_now.
  unfold bind at 1. cbn [print emit]. unfold bind at 1. rewrite Hreg.
  set (body := if negb (truthy _) then _ else _).
  unfold try_catch, after_trace.
  destruct (body (next_net (next_clock w))) as [[[[] | e] w2] t2];
    cbn [result world_after trace fst snd app]; [reflexivity |].
  unfold asyncio_sleep, bind, print, emit.
  cbn [result world_after trace fst snd app]. now rewrite <- !app_assoc.
Qed.

(** X15.  Whenever what the registry client returns is falsy (the empty list,
    but also null, 0, an empty object or an empty string under "sources"), the
    sweep handles no source: it makes the one registry request, prints, and
    sleeps 30 seconds. *)
Theorem empty_registry_answer_gives_idle_sweep (w : World) :
  truthy (registry_answer (reply (next_clock w))) = false ->
  exists t,
    actions t = []
    /\ sweep self w
       = (Ok tt, next_net (next_clock w),
          ([EvPrint (LogChecking (reading w)); registry_request self] ++ t
           ++ [EvPrint LogNoSources; EvSleep 30])%list).
Proof.
  intros Hempty. destruct (sweep_after_registry w) as (t & Hact & Hsweep).
  cbv zeta in Hsweep. rewrite Hempty in Hsweep. exists t.
  split; [exact Hact |]. rewrite Hsweep.
  unfold after_trace, try_catch, bind, print, emit, asyncio_sleep.
  cbn [result world_after trace fst snd]. now rewrite <- app_assoc.
Qed.

(** X16.  When the registry returns a list of objects that is not empty, the
    sweep announces their number, handles every one of them in order, and then
    sleeps 60 seconds: no error of a source shortens the wait or ends the
    sweep. *)
Theorem sweep_of_objects_waits_60_seconds (sources : list pyval) (w : World) :
  registry_answer (reply (next_clock w)) = VList sources ->
  sources <> [] ->
  forallb is_dict sources = true ->
  exists t0 t w2,
    actions t0 = []
    /\ sweep_sources self sources (next_net (next_clock w)) = (Ok tt, w2, t)
    /\ sweep self w
       = (Ok tt, w2,
          ([EvPrint (LogChecking (reading w)); registry_request self] ++ t0
           ++ [EvPrint (LogFound (Z.of_nat (List.length sources)))] ++ t
           ++ [EvPrint LogWaiting; EvSleep 60])%list).
Proof.
  intros Hsources Hsome Hdicts.
  destruct (sweep_after_registry w) as (t0 & Hact & Hsweep).
  cbv zeta in Hsweep. rewrite Hsources in Hsweep.
  destruct (sweep_dicts_returns self sources Hdicts (next_net (next_clock w)))
    as ([] & w2 & t & Hrun).
  exists t0, t, w2. split; [exact Hact | split; [exact Hrun |]].
  rewrite Hsweep.
  assert (Htruthy : truthy (VList sources) = true)
    by (destruct sources; [contradiction | reflexivity]).
  rewrite Htruthy. cbn [negb len iterate].
  unfold after_trace, try_catch, asyncio_sleep, bind, print, emit, lift.
  rewrite Hrun. reflexivity.
Qed.

End RegistryFacts.


(** ** Schedule fields that cannot be read *)

Section ScheduleFieldFacts.

Context {RT : Runtime}.
Variable self : service.



End ScheduleFieldFacts.

(** ** When the RSS strategy raises *)

Section RssErrorFacts.

Context {RT : Runtime}.

Lemma mock_rss_without_name (source : pydict) (w : World) :
  lookup source "sourceName" = None ->
  generate_mock_rss_data source w = (Raise (Exn KeyError "'sourceName'"), w, []).
Proof.
  intros Hname. unfold generate_mock_rss_data, mock_article, bind at 1, bind at 1.
  unfold dict_item at 1. now rewrite Hname.
Qed.

Lemma item_step_without_name (source : pydict) acc item (w : World) :
  lookup source "sourceName" = None ->
  exists w1 t, rss_item_step source acc item w = (Ok acc, w1, t).
Proof.
  intros Hname. unfold rss_item_step, rss_item_body, try_catch, dict_item.
  rewrite Hname.
  destruct (some_text (get_xml_text item ["title"])); [| now eexists _, _].
  unfold bind, lift, datetime_now, ret, print, emit.
  destruct (some_text (get_xml_text item ["pubDate"; "published"; _]));
    destruct (lookup source "sourceId"); now eexists _, _.
Qed.

Lemma parse_without_name (content : string) (source : pydict) (w : World) :
  lookup source "sourceName" = None ->
  exists w1 t, parse_rss_content content source w = (Ok [], w1, t).
Proof.
  intros Hname. unfold parse_rss_content, try_catch, bind at 1.
  destruct (ET_fromstring content) as [root | e]; cbn [lift].
  - assert (Hloop : forall items w0, exists w1 t,
              for_each items (rss_item_step source) [] w0 = (Ok [], w1, t)).
    { induction items as [| item rest IH]; intros w0; [now eexists _, _ |].
      cbn [for_each]. unfold bind.
      destruct (item_step_without_name source [] item w0 Hname)
        as (w1 & t1 & ->).
      destruct (IH w1) as (w2 & t2 & ->). now eexists _, _. }
    destruct (Hloop (firstn 10 (matched_items root)) w) as (w1 & t & ->).
    now eexists _, _.
  - now eexists _, _.
Qed.

(** X18.  Called with a source that has a sourceId and a sourceName, as
    [process_source] always calls it, the RSS strategy never raises. Without a
    sourceName and with a feed URL it always raises KeyError, whatever the
    feed answers: no article can be built from an item, and the synthetic
    articles cannot be built either, not even in the handler of the strategy. *)
Theorem rss_strategy_raises_only_without_identity (source : pydict) :
  (lookup source "sourceId" <> None ->
   lookup source "sourceName" <> None ->
   never_raises (fetch_rss_data source))
  /\ (lookup source "sourceName" = None ->
      truthy (dict_get source "sourceUrl") = true ->
      forall w, exists w1 t,
        fetch_rss_data source w = (Raise (Exn KeyError "'sourceName'"), w1, t)).
Proof.
  split.
  - intros Hid Hname w.
    destruct (truthy (dict_get source "sourceUrl")) eqn:Hurl.
    + destruct (lookup source "sourceId") as [source_id |] eqn:Eid;
        [| contradiction].
      destruct (lookup source "sourceName") as [source_name |] eqn:Ename;
        [| contradiction].
      unfold dict_get in Hurl.
      destruct (lookup source "sourceUrl") as [source_url |] eqn:Eurl;
        [| discriminate].
      destruct (fetch_rss_with_url source _ _ _ w Eid Ename Eurl Hurl)
        as (articles & w1 & t & Hrun & _).
      now exists articles, w1, t.
    + rewrite (fetch_rss_without_url source w Hurl). now eexists _, _, _.
  - intros Hname Hurl w.
    pose proof (fun w0 => mock_rss_without_name source w0 Hname) as Hmock.
    unfold fetch_rss_data. rewrite Hurl. cbn [negb].
    unfold try_catch, bind at 1, print, emit, bind at 1, session_get.
    destruct (reply w) as [r | e].
    + destruct (status r =? 200).
      * unfold bind at 1. destruct (text r) as [content | e]; cbn [lift].
        -- unfold bind at 1.
           destruct (parse_without_name content source (next_net w) Hname)
             as (w1 & t & ->).
           unfold bind, print, emit. rewrite !Hmock. now eexists _, _.
        -- unfold bind, print, emit. rewrite !Hmock. now eexists _, _.
      * unfold bind, print, emit. rewrite !Hmock. now eexists _, _.
    + unfold bind, print, emit. rewrite !Hmock. now eexists _, _.
Qed.

End RssErrorFacts.


(** ** Concrete runs *)

Section ConcreteRuns.

Import Demo.

(** On a machine in UTC, a source stamped in UTC is processed when the clock
    reads exactly 300 seconds after the timestamp, and is only logged one
    microsecond earlier, as the specification has it. *)
Lemma due_check_compares_wall_clock_readings_witness :
  let last_time := Datetime t0 (Some 0) in
  eligible stamped_source = true
  /\ clock_shift 0 last_time = 0
  /\ spec_due (instant 0 (reading at_the_interval)) (Some (instant 0 last_time))
       (inject_Z 300) = true
  /\ handle_source_dict svc stamped_source at_the_interval
     = after_trace [EvPrint (source_line stamped_source)]
         (guarded_process svc stamped_source (next_clock at_the_interval))
  /\ spec_due (instant 0 (reading just_before)) (Some (instant 0 last_time))
       (inject_Z 300) = false
  /\ (exists line,
        handle_source_dict svc stamped_source just_before
        = (Ok tt, next_clock just_before,
           [EvPrint (source_line stamped_source); EvPrint line])).
Proof.
  cbv zeta.
  split; [reflexivity | split; [reflexivity | split; [reflexivity |]]].
  split; [| split; [reflexivity |]].
  - destruct (due_check_compares_wall_clock_readings svc stamped_source
                at_the_interval eq_refl) as (_ & Hcheck & _ & Hspec).
    apply (Hcheck eq_refl).
    destruct (Hspec 0 (Datetime t0 (Some 0)) 300 eq_refl eq_refl eq_refl)
      as [_ Hzone].
    exact (Hzone eq_refl).
  - destruct (due_check_compares_wall_clock_readings svc stamped_source
                just_before eq_refl) as (_ & Hcheck & _ & Hspec).
    apply (Hcheck eq_refl).
    destruct (Hspec 0 (Datetime t0 (Some 0)) 300 eq_refl eq_refl eq_refl)
      as [_ Hzone].
    exact (Hzone eq_refl).
Defined.

(** A sweep against an unreachable registry. *)
Lemma registry_failure_gives_idle_sweep_witness :
  registry_down (world_of unreachable 5)
  /\ sweep svc (world_of unreachable 5)
     = (Ok tt, next_net (next_clock (world_of unreachable 5)),
        idle_sweep_trace svc (world_of unreachable 5)).
Proof.
  split; [exact I |].
  apply (registry_failure_gives_idle_sweep svc (world_of unreachable 5)).
  exact I.
Defined.

Lemma ineligible_source_is_only_logged_witness :
  handle_source svc (VDict paused_source) (world_of unreachable 5)
  = (Ok tt, world_of unreachable 5, inactive_lines paused_source).
Proof.
  apply (ineligible_source_is_only_logged svc paused_source).
  right. reflexivity.
Defined.

Lemma empty_cities_list_means_no_delivery_witness :
  process_source svc (weather_source (VDict [("cities", VList [])]))
    (world_of unreachable 5)
  = (Ok tt, world_of unreachable 5,
     [EvPrint (LogProcessing (VStr "City weather") (VStr "weather"));
      EvPrint (LogNoData (VStr "City weather"))]).
Proof.
  apply (empty_cities_list_means_no_delivery svc
           (weather_source (VDict [("cities", VList [])]))
           [("cities", VList [])] eq_refl eq_refl)
    with (source_id := VStr "w1"); reflexivity.
Defined.

(** Two cities and the placeholder key: two synthetic records, no request.
    A real key and a provider that answers 500: a synthetic record for the
    city. *)
Lemma weather_fetch_falls_back_per_city_witness :
  (exists items w1 t,
      fetch_weather_data
        (weather_source (VDict [("cities", VList [VStr "Paris"; VStr "Tokyo"]);
                                ("apiKey", VStr "demo-key")]))
        (world_of unreachable 5) = (Ok items, w1, t)
      /\ items <> []
      /\ map item_city items = [VStr "Paris"; VStr "Tokyo"]
      /\ t = [])
  /\ (exists item w1 t,
        city_step (weather_source (VDict [])) (VStr "real-key") [] (VStr "Paris")
          (world_of (http 500 "Internal Server Error" not_json) 5)
        = (Ok [item], w1, t)
        /\ synthetic_for (VStr "Paris") (VStr "w1") item
        /\ item_city item = VStr "Paris").
Proof.
  split.
  - destruct (proj1 (proj2 (proj2 (weather_fetch_falls_back_per_city
                (weather_source
                   (VDict [("cities", VList [VStr "Paris"; VStr "Tokyo"]);
                           ("apiKey", VStr "demo-key")])))))
                (VStr "w1")
                [("cities", VList [VStr "Paris"; VStr "Tokyo"]);
                 ("apiKey", VStr "demo-key")]
                [VStr "Paris"; VStr "Tokyo"]
                eq_refl eq_refl eq_refl eq_refl (world_of unreachable 5))
      as (items & w1 & t & Hrun & _ & Hdemo).
    exists items, w1, t. split; [exact Hrun |].
    destruct Hdemo as (Hne & _ & Hmap & Ht).
    + right. reflexivity.
    + right. discriminate.
    + repeat split; assumption.
  - apply (proj2 (proj2 (proj2 (weather_fetch_falls_back_per_city
                                  (weather_source (VDict [])))))
             (VStr "w1") (VStr "real-key") [] (VStr "Paris"));
      reflexivity.
Defined.

(** A feed that cannot be reached. *)
Lemma rss_fallback_two_articles_witness :
  exists articles w1 t,
    fetch_rss_data (rss_source (VStr "http://feed.example/rss"))
      (world_of unreachable 5) = (Ok articles, w1, t)
    /\ articles <> []
    /\ map (fun a => entry a "title") articles
       = [VStr "Breaking: Latest updates from Tech feed";
          VStr "Technology Update from Tech feed"]
    /\ map (fun a => entry a "link") articles
       = [VStr "http://feed.example/rss/article-1";
          VStr "http://feed.example/rss/article-2"].
Proof.
  destruct (proj1 (rss_fallback_two_articles svc
              (rss_source (VStr "http://feed.example/rss")))
              (VStr "r1") (VStr "Tech feed") (VStr "http://feed.example/rss")
              eq_refl eq_refl eq_refl eq_refl (world_of unreachable 5))
    as (articles & w1 & t & Hrun & Hne & Hdown).
  exists articles, w1, t. split; [exact Hrun | split; [exact Hne |]].
  exact (proj2 (Hdown I)).
Defined.


(** Content that is not XML. *)
Lemma parser_never_raises_witness :
  parse_rss_content "<unclosed" (rss_source (VStr "http://f"))
    (world_of unreachable 5)
  = (Ok [], world_of unreachable 5,
     [EvPrint (LogXmlError (Exn ParseError "syntax error: line 1, column 0"))]).
Proof.
  apply (parser_never_raises "<unclosed" (rss_source (VStr "http://f"))).
  reflexivity.
Defined.


(** A whole sweep: the registry lists one weather source for New York
    without an API key and never ingested; the backend accepts the delivery.
    One POST is made, the summary line reads 1 out of 1, and the sweep ends
    with the 60-second sleep. *)
Example one_city_one_delivery :
  let run :=
    sweep svc
      (scripted
         [registry_lists
            [VDict (weather_source (VDict [("cities", VList [VStr "New York"])]))];
          accepted] 5) in
  result run = Ok tt
  /\ List.length (filter is_post (trace run)) = 1%nat
  /\ In (EvPrint (LogSummary (VStr "City weather") 1 1)) (trace run)
  /\ last (trace run) (EvSleep 0) = EvSleep 60.
Proof.
  cbv zeta. repeat split; try reflexivity.
  vm_compute. do 7 right. now left.
Qed.

(** The record for a city of the table, with the first random draws. *)
Example synthetic_paris :
  result (generate_mock_weather_data (VStr "Paris") (VStr "w1")
            (world_of unreachable 5))
  = Ok (VDict
      [("city", VStr "Paris"); ("temperature", VInt 9);
       ("description", VStr "Few clouds"); ("humidity", VInt 42);
       ("windSpeed", VFloat (3 # 10)); ("pressure", VInt 994);
       ("timestamp", VStr "2024-01-01T00:05:00");
       ("source", VStr "pathway-service-w1"); ("sourceId", VStr "w1");
       ("coordinates", VDict [("lat", VFloat (488566 # 10000));
                              ("lon", VFloat (23522 # 10000))])]).
Proof. reflexivity. Qed.

(** A weather source whose config is null: the body of the strategy raises,
    and the strategy returns the empty list, not a synthetic record.  The
    same happens for a city that is not hashable, although there is no
    apiKey and the cities list is not empty. *)
Lemma weather_error_outside_city_counterexample :
  (exists e, result (fetch_weather_body (weather_source VNone)
                       (world_of unreachable 5)) = Raise e)
  /\ result (fetch_weather_data (weather_source VNone) (world_of unreachable 5))
     = Ok []
  /\ result (fetch_weather_data
               (weather_source (VDict [("cities", VList [VList [VStr "Paris"]])]))
               (world_of unreachable 5))
     = Ok [].
Proof. split; [eexists; reflexivity | split; reflexivity]. Qed.

(** An active RSS source whose sourceUrl is empty: the strategy returns the
    empty list. *)
Lemma rss_without_url_counterexample :
  eligible (rss_source (VStr "")) = true
  /\ dict_get (rss_source (VStr "")) "sourceType" = VStr "rss"
  /\ fetch_rss_data (rss_source (VStr "")) (world_of unreachable 5)
     = (Ok [], world_of unreachable 5, []).
Proof. repeat split. Qed.


(** Where the loop leaves the specification.  A timestamp written with the
    offset +05:30, read on a machine in UTC 400 seconds after the instant it
    names: the source is due, and the loop only prints that the next run is
    in 19700 seconds.  A timestamp in UTC read on a machine at +05:30, 100
    seconds after: the source is not due, and the loop processes it.  A
    timestamp without offset, one microsecond less than the interval of
    63839664300 seconds ago: the source is not due, but the float of the
    difference is 63839664300.0 and the loop processes it. *)
Lemma due_check_misses_elapsed_time_counterexample :
  let later := world_of unreachable (t0 + 400000000) in
  let zoned := Datetime (t0 + 19800000000) (Some 19800000000) in
  let ahead := world_of unreachable (t0 + 19800000000 + 100000000) in
  let ancient := Datetime (t0 - 63839664000000000) None in
  (eligible offset_stamped_source = true
   /\ @timestamp_of zoned_runtime offset_stamped_source = Ok zoned
   /\ spec_due (instant 0 (reading later)) (Some (instant 0 zoned)) (inject_Z 300)
      = true
   /\ @handle_source_dict zoned_runtime svc offset_stamped_source later
      = (Ok tt, next_clock later,
         [EvPrint (source_line offset_stamped_source);
          EvPrint (LogNextRun (VStr "City weather") 19700)]))
  /\ (eligible stamped_source = true
      /\ timestamp_of stamped_source = Ok (Datetime t0 (Some 0))
      /\ spec_due (instant 19800000000 (reading ahead))
           (Some (instant 19800000000 (Datetime t0 (Some 0)))) (inject_Z 300)
         = false
      /\ due_check stamped_source ahead = Ok true
      /\ List.length
           (filter is_post (trace (handle_source_dict svc stamped_source ahead)))
         = 1%nat)
  /\ (eligible ancient_source = true
      /\ @timestamp_of zoned_runtime ancient_source = Ok ancient
      /\ wall (reading just_before) - wall ancient = 63839664300000000 - 1
      /\ spec_due (instant 0 (reading just_before)) (Some (instant 0 ancient))
           (inject_Z 63839664300)
         = false
      /\ @due_check zoned_runtime ancient_source just_before = Ok true
      /\ List.length
           (filter is_post
              (trace (@handle_source_dict zoned_runtime svc ancient_source
                        just_before)))
         = 1%nat).
Proof. cbv zeta. repeat split; vm_compute; reflexivity. Qed.

End ConcreteRuns.

(** ** More concrete runs *)

Section MoreConcreteRuns.

Import Demo.

(** Two items, the first accepted and the second answered with 500. *)
Lemma one_post_per_item_and_successes_counted_witness :
  let source := weather_source (VDict []) in
  let w := scripted [accepted; http 500 "busy" not_json] 5 in
  envelope_ready source = true
  /\ accepted_from (net w) (net_pos w) 2 = 1%nat
  /\ exists t,
       for_each [VStr "a"; VStr "b"] (deliver_step svc source (VStr "City weather"))
         O w
       = (Ok (accepted_from (net w) (net_pos w) 2), Nat.iter 2 after_delivery w, t)
       /\ actions t = ingest_requests svc [VStr "a"; VStr "b"] source w
       /\ List.length (filter is_post t) = 2%nat
       /\ (accepted_from (net w) (net_pos w) 2 <= 2)%nat.
Proof.
  cbv zeta. split; [reflexivity | split; [reflexivity |]].
  apply (one_post_per_item_and_successes_counted svc (weather_source (VDict []))
           (VStr "City weather") [VStr "a"; VStr "b"]
           (scripted [accepted; http 500 "busy" not_json] 5)).
  reflexivity.
Defined.

(** A source without sourceUrl and maxEntries: nothing is sent. *)
Lemma missing_envelope_entry_sends_nothing_witness :
  envelope_ready paused_source = false
  /\ exists w1 t,
       for_each [VStr "a"; VStr "b"] (deliver_step svc paused_source (VStr "Paused"))
         O (world_of accepted 5)
       = (Ok O, w1, t)
       /\ actions t = []
       /\ List.length t = 2%nat
       /\ net_pos w1 = net_pos (world_of accepted 5).
Proof.
  split; [reflexivity |].
  apply (missing_envelope_entry_sends_nothing svc paused_source (VStr "Paused")
           [VStr "a"; VStr "b"] eq_refl O (world_of accepted 5)).
Defined.

Lemma unsupported_type_is_only_logged_witness :
  process_source svc social_source (world_of accepted 5)
  = (Ok tt, world_of accepted 5,
     [EvPrint (LogProcessing (VStr "Timeline") (VStr "twitter"));
      EvPrint (LogUnsupported (VStr "twitter"))]).
Proof.
  apply (unsupported_type_is_only_logged svc social_source (VStr "s1")
           (VStr "twitter") (VStr "Timeline") (world_of accepted 5));
    reflexivity.
Defined.

(** A registry entry that is a string, between two objects. *)
Lemma sources_are_isolated_unless_not_objects_witness :
  forallb is_dict [VDict paused_source] = true
  /\ exists w1 t,
       sweep_sources svc [VDict paused_source] (world_of unreachable 5)
       = (Ok tt, w1, t)
       /\ sweep_sources svc ([VDict paused_source] ++ [VDict social_source])
            (world_of unreachable 5)
          = after_trace t (sweep_sources svc [VDict social_source] w1)
       /\ forall v, is_dict v = false ->
            exists e,
              sweep_sources svc ([VDict paused_source] ++ v :: [VDict social_source])
                (world_of unreachable 5)
              = (Raise e, w1, t)
              /\ exn_cls e = AttributeError.
Proof.
  split; [reflexivity |].
  apply (sources_are_isolated_unless_not_objects svc [VDict paused_source]
           [VDict social_source] (world_of unreachable 5)).
  reflexivity.
Defined.

(** Two cities and a key, against a provider that cannot be reached. *)
Lemma one_provider_request_per_city_witness :
  exists items w1 t,
    fetch_weather_data (weather_source (VDict two_cities_with_key))
      (world_of unreachable 5)
    = (Ok items, w1, t)
    /\ List.length items = 2%nat
    /\ actions t
       = [weather_request (VStr "Paris") (VStr "k-123");
          weather_request (VStr "Rome") (VStr "k-123")]
    /\ net_pos w1 = 2%nat.
Proof.
  apply (one_provider_request_per_city
           (weather_source (VDict two_cities_with_key)) two_cities_with_key
           (VStr "w1") [VStr "Paris"; VStr "Rome"] (world_of unreachable 5));
    reflexivity.
Defined.

Lemma no_source_id_no_weather_witness :
  fetch_weather_data anonymous_weather_source (world_of unreachable 5)
  = (Ok [], world_of unreachable 5,
     [EvPrint (LogCityError (VStr "New York") (Exn KeyError "'sourceId'"));
      EvPrint (LogWeatherError (Exn KeyError "'sourceId'"))]).
Proof.
  apply (no_source_id_no_weather anonymous_weather_source [] (VStr "New York") []
           (world_of unreachable 5));
    reflexivity.
Defined.

(** Two cities, no key, a backend that accepts the first record only. *)
Lemma weather_source_without_key_delivers_every_city_witness :
  let source := weather_source (VDict two_cities) in
  let w := scripted [accepted; http 500 "busy" not_json] 5 in
  let fetched := Nat.iter 2 after_mock w in
  exists items t,
    map item_city items = [VStr "Paris"; VStr "Rome"]
    /\ process_source svc source w
       = (Ok tt, Nat.iter 2 after_delivery fetched,
          ([EvPrint (LogProcessing (VStr "City weather") (VStr "weather"))] ++ t
           ++ [EvPrint (LogSummary (VStr "City weather")
                          (accepted_from (net w) (net_pos w) 2) 2)])%list)
    /\ actions t = ingest_requests svc items source fetched.
Proof.
  cbv zeta.
  apply (weather_source_without_key_delivers_every_city svc
           (weather_source (VDict two_cities)) two_cities (VStr "w1")
           (VStr "City weather") [VStr "Paris"; VStr "Rome"]
           (scripted [accepted; http 500 "busy" not_json] 5));
    try reflexivity.
  discriminate.
Defined.

(** An Atom feed with two titled entries gives no article. *)
Lemma namespaced_entries_yield_no_article_witness :
  @ET_fromstring atom_runtime "<atom/>" = Ok atom_feed
  /\ List.length (matched_items atom_feed) = 2%nat
  /\ @parse_rss_content atom_runtime "<atom/>" (rss_source (VStr "http://feed"))
       (world_of unreachable 5)
     = (Ok [], world_of unreachable 5, []).
Proof.
  split; [reflexivity | split; [reflexivity |]].
  apply (@namespaced_entries_yield_no_article atom_runtime "<atom/>"
           (rss_source (VStr "http://feed")) atom_feed (world_of unreachable 5)
           eq_refl).
  repeat constructor; first [now exists "title" | now exists "summary"].
Defined.

(** The registry answers 200 with an empty list of sources. *)
Lemma empty_registry_answer_gives_idle_sweep_witness :
  let w := world_of (registry_lists []) 5 in
  exists t,
    actions t = []
    /\ sweep svc w
       = (Ok tt, next_net (next_clock w),
          ([EvPrint (LogChecking (reading w)); registry_request svc] ++ t
           ++ [EvPrint LogNoSources; EvSleep 30])%list).
Proof.
  cbv zeta.
  apply (empty_registry_answer_gives_idle_sweep svc (world_of (registry_lists []) 5)).
  reflexivity.
Defined.

(** The registry lists one paused source. *)
Lemma sweep_of_objects_waits_60_seconds_witness :
  let w := world_of (registry_lists [VDict paused_source]) 5 in
  exists t0 t w2,
    actions t0 = []
    /\ sweep_sources svc [VDict paused_source] (next_net (next_clock w))
       = (Ok tt, w2, t)
    /\ sweep svc w
       = (Ok tt, w2,
          ([EvPrint (LogChecking (reading w)); registry_request svc] ++ t0
           ++ [EvPrint (LogFound 1)] ++ t
           ++ [EvPrint LogWaiting; EvSleep 60])%list).
Proof.
  cbv zeta.
  apply (sweep_of_objects_waits_60_seconds svc [VDict paused_source]
           (world_of (registry_lists [VDict paused_source]) 5));
    [reflexivity | discriminate | reflexivity].
Defined.


End MoreConcreteRuns.
